(** * CV Bank: a shallow embedding of [cvbank.py]

    The application is a Streamlit script over a Firestore collection.
    Every run of the script is modelled as a computation over a [World]:
    the remote collection, Streamlit's session state and the page being
    rendered.  Python exceptions (including the one [st.rerun] raises)
    are the error half of the computation's outcome. *)

From Stdlib Require Import Ascii.
From stdpp Require Import gmap strings list fin_maps pretty.

(** ** Python values and dictionaries *)

(** The values found in profile documents: text, and lists of text.
    A character of a [string] stands for one code point below 256. *)
Inductive value :=
| VStr (s : string)
| VList (l : list string).

#[global] Instance value_eq_dec : EqDecision value.
Proof. solve_decision. Defined.

#[global] Instance value_inhabited : Inhabited value := populate (VStr "").

(** A Python [dict] with text keys.  Documents are compared as maps, so
    the insertion order of a dict is not part of the model. *)
Abbreviation dict := (gmap string value).

(** [{**a, **b}] and [a.update(b)]: the entries of [b] win. *)
Definition dict_update (a b : dict) : dict := b ∪ a.

(** [d.get(k, default)] *)
Definition dict_get (d : dict) (k : string) (dflt : value) : value :=
  default dflt (d !! k).

(** Truth value of a [str]: non-empty. *)
Definition str_truthy (s : string) : bool :=
  match s with
  | EmptyString => false
  | String _ _ => true
  end.

(** Truth value of a document value. *)
Definition truthy (v : value) : bool :=
  match v with
  | VStr s => str_truthy s
  | VList l => match l with [] => false | _ :: _ => true end
  end.

(** Truth value of the result of [d.get(k)], which is [None] (false)
    when the key is missing. *)
Definition get_truthy (d : dict) (k : string) : bool :=
  match d !! k with
  | Some v => truthy v
  | None => false
  end.

(** [for x in v]: a list yields its items, a [str] its characters. *)
Fixpoint chars (s : string) : list string :=
  match s with
  | EmptyString => []
  | String c s' => String c EmptyString :: chars s'
  end.

Definition py_iter (v : value) : list string :=
  match v with
  | VStr s => chars s
  | VList l => l
  end.

(** [sep.join(xs)] *)
Fixpoint join (sep : string) (xs : list string) : string :=
  match xs with
  | [] => ""
  | [x] => x
  | x :: xs' => x +:+ sep +:+ join sep xs'
  end.

(** [str.isspace] on one character, for code points below 256:
    TAB..CR, FS..US, SPACE, NEL and NBSP. *)
Definition isspace (c : ascii) : bool :=
  let n := nat_of_ascii c in
  ((9 <=? n) && (n <=? 13)) || ((28 <=? n) && (n <=? 32))
  || (n =? 133) || (n =? 160).

Fixpoint lstrip (s : string) : string :=
  match s with
  | EmptyString => EmptyString
  | String c s' => if isspace c then lstrip s' else s
  end.

Fixpoint rstrip (s : string) : string :=
  match s with
  | EmptyString => EmptyString
  | String c s' =>
      match rstrip s' with
      | EmptyString => if isspace c then EmptyString else String c EmptyString
      | r => String c r
      end
  end.

(** [s.strip()] *)
Definition strip (s : string) : string := rstrip (lstrip s).

(** [s.lower()] on the ASCII letters (the only ones in the labels it is
    applied to). *)
Definition lower_char (c : ascii) : ascii :=
  let n := nat_of_ascii c in
  if (65 <=? n) && (n <=? 90) then ascii_of_nat (n + 32) else c.

Fixpoint lower (s : string) : string :=
  match s with
  | EmptyString => EmptyString
  | String c s' => String (lower_char c) (lower s')
  end.

(** ** Exceptions *)

(** The exceptions of the store, of Python and of [st.rerun()].  The
    exceptions by which Streamlit itself refuses a widget (a key used
    twice in a run, a multiselect default that is not among the options)
    are not part of the model: see [display_profile] and [edit_form]. *)
Inductive exn :=
| ServiceError (why : string)     (* network or permission failure *)
| NotFound (doc_id : string)      (* update of a missing document *)
| AlreadyExists (doc_id : string) (* create on a taken identifier *)
| InvalidPath (doc_id : value)    (* a document id that is not text *)
| ValueError (why : string)       (* a rejected service-account key *)
| KeyError (key : string)
| AttributeError (name : string)
| RerunException.                 (* raised by [st.rerun()] *)

#[global] Instance exn_eq_dec : EqDecision exn.
Proof. solve_decision. Defined.

(** [except Exception] catches everything but Streamlit's script-control
    exception, which derives from [BaseException]. *)
Definition is_Exception (e : exn) : bool :=
  match e with
  | RerunException => false
  | _ => true
  end.

(** ** The Firestore collection *)

(** What the service does with the next request it receives: it serves
    it (and, for an [add], proposes [auto_id] as the new identifier), or
    the call fails. *)
Inductive fate :=
| Serves (auto_id : string)
| Fails (why : string).

Inductive request :=
| ReqAdd (data : dict)
| ReqUpdate (doc_id : string) (data : dict)
| ReqStream.

#[global] Instance request_eq_dec : EqDecision request.
Proof. solve_decision. Defined.

Definition is_write (r : request) : bool :=
  match r with
  | ReqAdd _ | ReqUpdate _ _ => true
  | ReqStream => false
  end.

(** The collection is kept as the list in which the model's service
    streams it.  Where a new document lands among the others in a real
    listing is the store's choice; the model puts it last, and what is
    stated of a listing that follows a create is stated up to order. *)
Record Firestore := mkFirestore {
  documents : list (string * dict); (* the collection, in stream order *)
  fates : list fate;                (* answers to the coming requests *)
  requests : list request;          (* requests received so far *)
}.

(** [doc_ref.update(data)] on the stored documents: the fields of [data]
    replace or extend those of the document [doc_id]; [None] when there
    is no such document. *)
Fixpoint update_document (doc_id : string) (data : dict)
    (docs : list (string * dict)) : option (list (string * dict)) :=
  match docs with
  | [] => None
  | (i, d) :: docs' =>
      if decide (i = doc_id) then Some ((i, dict_update d data) :: docs')
      else cons (i, d) <$> update_document doc_id data docs'
  end.

Definition doc_ids (docs : list (string * dict)) : list string := docs.*1.

(** The service's side of one request: the outcome and the new state.
    An exhausted [fates] list means the service is unreachable. *)
Definition next_fate (fs : Firestore) : fate * list fate :=
  match fates fs with
  | [] => (Fails "unavailable", [])
  | f :: rest => (f, rest)
  end.

Definition serve_add (data : dict) (fs : Firestore)
    : (exn + string) * Firestore :=
  let '(f, rest) := next_fate fs in
  let log := requests fs ++ [ReqAdd data] in
  match f with
  | Fails why => (inl (ServiceError why), mkFirestore (documents fs) rest log)
  | Serves auto_id =>
      if decide (auto_id ∈ doc_ids (documents fs))
      then (inl (AlreadyExists auto_id), mkFirestore (documents fs) rest log)
      else (inr auto_id,
            mkFirestore (documents fs ++ [(auto_id, data)]) rest log)
  end.

Definition serve_update (doc_id : string) (data : dict) (fs : Firestore)
    : (exn + unit) * Firestore :=
  let '(f, rest) := next_fate fs in
  let log := requests fs ++ [ReqUpdate doc_id data] in
  match f with
  | Fails why => (inl (ServiceError why), mkFirestore (documents fs) rest log)
  | Serves _ =>
      match update_document doc_id data (documents fs) with
      | None => (inl (NotFound doc_id), mkFirestore (documents fs) rest log)
      | Some docs' => (inr (), mkFirestore docs' rest log)
      end
  end.

Definition serve_stream (fs : Firestore)
    : (exn + list (string * dict)) * Firestore :=
  let '(f, rest) := next_fate fs in
  let log := requests fs ++ [ReqStream] in
  match f with
  | Fails why => (inl (ServiceError why), mkFirestore (documents fs) rest log)
  | Serves _ => (inr (documents fs), mkFirestore (documents fs) rest log)
  end.

(** ** The page, the session and the world of a script run *)

Inductive kind :=
| Title | Markdown | Header | Subheader | Write
| Info | Error | Warning | Success | Expander.

(** What a run puts on the page.  Text interpolated from a document
    value or from an exception is kept as that value or exception, not
    as its printed form.  Input widgets put nothing on the page: they
    are represented by the values they return (see [Inputs]); only the
    per-profile edit button, whose presence is conditional, is listed. *)
Inductive Element :=
| Text (k : kind) (text : string)
| TextVal (k : kind) (before : string) (v : value) (after : string)
| TextExn (k : kind) (before : string) (e : exn)
| EditButton (profile_id : value) (key_suffix : string).

#[global] Instance kind_eq_dec : EqDecision kind.
Proof. solve_decision. Defined.

#[global] Instance Element_eq_dec : EqDecision Element.
Proof. solve_decision. Defined.

(** The keys of [st.session_state] the script uses.  [None] stands for a
    key that is not (yet) in the session state; for
    [current_edit_profile_id] it also stands for a stored [None], which
    [.get] does not tell apart. *)
Record SessionState := mkSession {
  edit_mode : option bool;
  profile_to_edit : dict;
  additional_info_list : option (list string);
  current_edit_profile_id : option value;
}.

(** The service-account configuration found at import time. *)
Inductive Certificate :=
| ValidKey
| InvalidKey (why : string).

Record World := mkWorld {
  firebaseConfig : option Certificate;
  firebase_apps : bool;           (* [firebase_admin._apps] is non-empty *)
  firestore : Firestore;
  session_state : SessionState;
  page : list Element;
}.

Definition with_apps (b : bool) (w : World) : World :=
  mkWorld (firebaseConfig w) b (firestore w) (session_state w) (page w).
Definition with_firestore (fs : Firestore) (w : World) : World :=
  mkWorld (firebaseConfig w) (firebase_apps w) fs (session_state w) (page w).
Definition with_session (s : SessionState) (w : World) : World :=
  mkWorld (firebaseConfig w) (firebase_apps w) (firestore w) s (page w).
Definition with_page (p : list Element) (w : World) : World :=
  mkWorld (firebaseConfig w) (firebase_apps w) (firestore w) (session_state w) p.

(** ** Script computations *)

Inductive outcome (A : Type) :=
| Returned (a : A)
| Raised (e : exn).
Arguments Returned {A} a.
Arguments Raised {A} e.

Definition Script (A : Type) : Type := World → outcome A * World.

#[global] Instance Script_ret : MRet Script := λ A a w, (Returned a, w).

#[global] Instance Script_bind : MBind Script := λ A B k c w,
  match c w with
  | (Returned a, w') => k a w'
  | (Raised e, w') => (Raised e, w')
  end.

Definition raise {A} (e : exn) : Script A := λ w, (Raised e, w).

(** [try: body / except Exception as e: handler(e)] *)
Definition try_except {A} (body : Script A) (handler : exn → Script A)
    : Script A := λ w,
  match body w with
  | (Returned a, w') => (Returned a, w')
  | (Raised e, w') =>
      if is_Exception e then handler e w' else (Raised e, w')
  end.

Definition emit (e : Element) : Script unit :=
  λ w, (Returned (), with_page (page w ++ [e]) w).

Definition st_title s := emit (Text Title s).
Definition st_markdown s := emit (Text Markdown s).
Definition st_header s := emit (Text Header s).
Definition st_subheader s := emit (Text Subheader s).
Definition st_write s := emit (Text Write s).
Definition st_info s := emit (Text Info s).
Definition st_error s := emit (Text Error s).
Definition st_warning s := emit (Text Warning s).
Definition st_success s := emit (Text Success s).
Definition st_rerun {A} : Script A := raise RerunException.

Definition get_session : Script SessionState :=
  λ w, (Returned (session_state w), w).
Definition modify_session (f : SessionState → SessionState) : Script unit :=
  λ w, (Returned (), with_session (f (session_state w)) w).

Definition set_edit_mode (b : bool) (s : SessionState) : SessionState :=
  mkSession (Some b) (profile_to_edit s) (additional_info_list s)
            (current_edit_profile_id s).
Definition set_profile_to_edit (p : dict) (s : SessionState) : SessionState :=
  mkSession (edit_mode s) p (additional_info_list s)
            (current_edit_profile_id s).
Definition set_additional_info_list (l : list string) (s : SessionState)
    : SessionState :=
  mkSession (edit_mode s) (profile_to_edit s) (Some l)
            (current_edit_profile_id s).
Definition set_current_edit_profile_id (i : option value) (s : SessionState)
    : SessionState :=
  mkSession (edit_mode s) (profile_to_edit s) (additional_info_list s) i.

(** The client library: one call, one request to the service. *)
Inductive Client := firestore_client.

Definition call {A} (serve : Firestore → (exn + A) * Firestore) : Script A :=
  λ w,
  let '(r, fs) := serve (firestore w) in
  match r with
  | inl e => (Raised e, with_firestore fs w)
  | inr a => (Returned a, with_firestore fs w)
  end.

(** [cv_profiles_ref.add(data)] *)
Definition collection_add (data : dict) : Script string :=
  call (serve_add data).

(** [cv_profiles_ref.document(doc_id).update(data)]; a document
    reference can only be built from a text identifier. *)
Definition document_update (doc_id : value) (data : dict) : Script unit :=
  match doc_id with
  | VStr i => call (serve_update i data)
  | VList _ => raise (InvalidPath doc_id)
  end.

(** [cv_profiles_ref.stream()], consumed entirely. *)
Definition collection_stream : Script (list (string * dict)) :=
  call serve_stream.

(** ** The gateway functions *)

Definition initialize_firebase : Script (option Client) := λ w,
  match firebase_apps w, firebaseConfig w with
  | false, Some cred =>
      match cred with
      | ValidKey =>
          (_ ← st_info "Firebase initialized successfully.";
           mret (Some firestore_client)) (with_apps true w)
      | InvalidKey why =>
          (_ ← emit (TextExn Error "Error initializing Firebase: "
                             (ValueError why));
           mret None) w
      end
  | _, None =>
      (_ ← st_error
             "Firebase configuration is missing. Cannot connect to the database.";
       mret None) w
  | true, Some _ => (Returned (Some firestore_client), w)
  end.

(** [save_profile(db_client, profile_data, user_id, doc_id=None)].  The
    caller's dict is mutated in place ([profile_data["user_id"] = ...]);
    the dict as the caller sees it afterwards is the result. *)
Definition save_profile (db_client : option Client) (profile_data : dict)
    (user_id : string) (doc_id : option value) : Script dict :=
  match db_client with
  | None =>
      _ ← st_error "Database not connected. Cannot save profile.";
      mret profile_data
  | Some _ =>
      let profile_data := <["user_id" := VStr user_id]> profile_data in
      _ ← try_except
            (match doc_id with
             | Some i =>
                 if truthy i then
                   _ ← document_update i profile_data;
                   st_success "CV updated successfully!"
                 else
                   _ ← collection_add profile_data;
                   st_success "CV published successfully!"
             | None =>
                 _ ← collection_add profile_data;
                 st_success "CV published successfully!"
             end)
            (λ e, emit (TextExn Error
                          "An error occurred while saving the profile: " e));
      mret profile_data
  end.

(** [{"id": doc.id, **doc.to_dict()}] *)
Definition profile_of_doc (doc : string * dict) : dict :=
  dict_update {["id" := VStr doc.1]} doc.2.

Definition load_profiles (db_client : option Client) : Script (list dict) :=
  match db_client with
  | None =>
      _ ← st_error "Database not connected. Cannot load profiles.";
      mret []
  | Some _ =>
      try_except
        (docs ← collection_stream;
         mret (profile_of_doc <$> docs))
        (λ e, _ ← emit (TextExn Error
                          "An error occurred while loading profiles: " e);
              mret [])
  end.

(** ** The presentation layer *)

(** The buttons of the page; at most one reports a click in a run. *)
Inductive Button :=
| AddBlock                      (* "Add another information block" *)
| PublishCV
| UpdateCV
| CancelEdit
| EditProfile (profile_id : value) (key_suffix : string).

#[global] Instance Button_eq_dec : EqDecision Button.
Proof. solve_decision. Defined.

(** The choices of the "Group Profiles by:" select box. *)
Inductive GroupBy := ByNone | ByExperience | ByProfession | ByExpertise.

Definition group_label (g : GroupBy) : string :=
  match g with
  | ByNone => "None"
  | ByExperience => "Experience"
  | ByProfession => "Profession"
  | ByExpertise => "Expertise"
  end.

(** What the input widgets return in one run of the script. *)
Record Inputs := mkInputs {
  ui_name : string;
  ui_contact : string;
  ui_experience : list string;
  ui_profession : list string;
  ui_expertise : list string;
  ui_summary : string;
  ui_experience_text : string;
  ui_education : string;
  ui_skills : string;
  ui_infos : list string;       (* the "Info i" boxes the user filled *)
  ui_pressed : option Button;
  ui_group_by : GroupBy;
}.

Definition pressed (ui : Inputs) (b : Button) : bool :=
  bool_decide (ui_pressed ui = Some b).

(** The loop [for i, info in enumerate(lst): lst[i] = st.text_input(...,
    value=info, ...)]: box [i] returns what the user typed in it, or its
    initial [value] when the user left it alone. *)
Definition read_infos (ui : Inputs) (lst : list string) : list string :=
  imap (λ i info, default info (ui_infos ui !! i)) lst.

(** [[item for item in lst if item.strip()]] *)
Definition clean_additional_info (lst : list string) : list string :=
  filter (λ item, str_truthy (strip item) = true) lst.

(** [any(xs)] on a list of texts *)
Definition any (xs : list string) : bool := existsb str_truthy xs.

(** The test that rejects a submission. *)
Definition nothing_filled (ui : Inputs) (cleaned : list string) : bool :=
  negb (any [ui_name ui; ui_contact ui; ui_summary ui;
             ui_experience_text ui; ui_education ui; ui_skills ui])
  && negb (truthy (VList cleaned)).

(** The dict literal built from the form. *)
Definition build_profile_data (ui : Inputs) (cleaned : list string) : dict :=
  <["name" := VStr (ui_name ui)]>
  (<["contact" := VStr (ui_contact ui)]>
  (<["summary" := VStr (ui_summary ui)]>
  (<["experience" := VList (ui_experience ui)]>
  (<["profession" := VList (ui_profession ui)]>
  (<["expertise" := VList (ui_expertise ui)]>
  (<["experience_text" := VStr (ui_experience_text ui)]>
  (<["education" := VStr (ui_education ui)]>
  (<["skills" := VStr (ui_skills ui)]>
  (<["additional_info" := VList cleaned]> ∅))))))))).

(** [d[k]] *)
Definition subscript (d : dict) (k : string) : Script value :=
  match d !! k with
  | Some v => mret v
  | None => raise (KeyError k)
  end.

Definition when (b : bool) (c : Script unit) : Script unit :=
  if b then c else mret ().

(** [for x in xs: body(x)] *)
Fixpoint for_each {A} (xs : list A) (body : A → Script unit) : Script unit :=
  match xs with
  | [] => mret ()
  | x :: xs' => _ ← body x; for_each xs' body
  end.

(** [if profile.get(k): st.write(f"**Label:** {', '.join(profile[k])}")] *)
Definition write_joined (profile : dict) (k label : string) : Script unit :=
  when (get_truthy profile k)
    (v ← subscript profile k;
     st_write (label +:+ join ", " (py_iter v))).

(** [if profile.get(k): st.write(f"**Label:**"); st.info(profile[k])] *)
Definition write_block (profile : dict) (k label : string) : Script unit :=
  when (get_truthy profile k)
    (_ ← st_write label;
     v ← subscript profile k;
     emit (TextVal Info "" v "")).

(** [display_profile(profile, user_id, is_admin, key_suffix="")].  The
    button's key [f"{profile['id']}_{key_suffix}"] is kept as the pair of
    its two parts.  Streamlit refuses a second button with the key of an
    earlier one of the same run; that check is left out, so the model
    describes the runs whose buttons Streamlit accepts. *)
Definition display_profile (ui : Inputs) (profile : dict) (user_id : string)
    (is_admin : bool) (key_suffix : string) : Script unit :=
  let is_owner := bool_decide (profile !! "user_id" = Some (VStr user_id)) in
  _ ← emit (TextVal Expander "**"
              (dict_get profile "name" (VStr "Anonymous Profile")) "**");
  _ ← when (get_truthy profile "contact")
        (v ← subscript profile "contact";
         emit (TextVal Write "**Contact:** " v ""));
  _ ← write_joined profile "experience" "**Experience:** ";
  _ ← write_joined profile "profession" "**Profession:** ";
  _ ← write_joined profile "expertise" "**Expertise:** ";
  _ ← write_block profile "summary" "**Summary:**";
  _ ← write_block profile "experience_text" "**Work Experience:**";
  _ ← write_block profile "education" "**Education:**";
  _ ← write_block profile "skills" "**Skills:**";
  _ ← when (get_truthy profile "additional_info")
        (_ ← st_write "**Additional Information:**";
         v ← subscript profile "additional_info";
         match v with
         | VList l => for_each l st_info
         | VStr _ => emit (TextVal Info "" v "")
         end);
  when (is_owner || is_admin)
    (i ← subscript profile "id";
     _ ← emit (EditButton i key_suffix);
     when (pressed ui (EditProfile i key_suffix))
       (_ ← modify_session (set_edit_mode true);
        _ ← modify_session (set_profile_to_edit profile);
        st_rerun)).

(** [grouped_profiles], a dict in insertion order: the statement
    [if key not in grouped: grouped[key] = []; grouped[key].append(p)]. *)
Fixpoint add_to_group (key : string) (profile : dict)
    (grouped : list (string * list dict)) : list (string * list dict) :=
  match grouped with
  | [] => [(key, [profile])]
  | (k, ps) :: rest =>
      if decide (k = key) then (k, ps ++ [profile]) :: rest
      else (k, ps) :: add_to_group key profile rest
  end.

(** [profile.get(field, ["Not specified"])], iterated *)
Definition group_key (field : string) (profile : dict) : list string :=
  py_iter (dict_get profile field (VList ["Not specified"])).

(** The two nested loops that fill [grouped_profiles]. *)
Definition group_profiles (field : string) (all_profiles : list dict)
    : list (string * list dict) :=
  foldl (λ grouped profile,
           foldl (λ grouped key, add_to_group key profile grouped)
                 grouped (group_key field profile))
        [] all_profiles.

(** [f"Group: {group_name} ({len(profiles_in_group)})"] *)
Definition group_heading (group_name : string) (profiles_in_group : list dict)
    : string :=
  "Group: " +:+ group_name +:+ " (" +:+ pretty (length profiles_in_group)
  +:+ ")".

(** [st.session_state.additional_info_list], read *)
Definition get_additional_info_list : Script (list string) :=
  s ← get_session;
  match additional_info_list s with
  | Some l => mret l
  | None => raise (AttributeError "additional_info_list")
  end.

(** The dynamic "Additional Information" block shared by both forms:
    the boxes are read back into the session list, and the "add another"
    button appends an empty slot and reruns.  Returns the list read. *)
Definition additional_info_block (ui : Inputs) : Script (list string) :=
  _ ← st_write "Additional Information (e.g., Achievements, Certifications)";
  lst ← get_additional_info_list;
  let lst := read_infos ui lst in
  _ ← modify_session (set_additional_info_list lst);
  _ ← when (pressed ui AddBlock)
        (_ ← modify_session (set_additional_info_list (lst ++ [""]));
         st_rerun);
  mret lst.

(** The sidebar when [edit_mode] is false: the "cv_form" form. *)
Definition create_form (db : option Client) (ui : Inputs) (user_id : string)
    : Script unit :=
  _ ← st_header "Create Your Profile";
  _ ← st_markdown "Fill out the form to publish your CV.";
  lst ← additional_info_block ui;
  let submitted := pressed ui PublishCV in
  when submitted
    (let cleaned_additional_info := clean_additional_info lst in
     if nothing_filled ui cleaned_additional_info then
       st_warning "Please fill out at least one field to publish your CV."
     else
       let profile_data := build_profile_data ui cleaned_additional_info in
       _ ← save_profile db profile_data user_id None;
       modify_session (set_additional_info_list [""])).

(** Leaving the edit form: the three assignments before [st.rerun()]. *)
Definition reset_edit : Script unit :=
  _ ← modify_session (set_edit_mode false);
  _ ← modify_session (set_profile_to_edit ∅);
  modify_session (set_additional_info_list [""]).

(** The start of the edit form's "Additional Information" block: the
    session list is loaded from the profile when it is missing or when
    the profile is not the one the list was last loaded for; a text
    found there (an older record) becomes a one-item list.  The session
    list is held by value.  In the script a list found in the profile is
    stored as that very list, so what the boxes then write into the
    session list also shows in the "additional_info" entry of
    [profile_to_edit].  The script does not read that entry again while
    the profile is the one loaded, so every later run sees the list the
    model keeps; of [profile_to_edit] after the boxes of the edit form
    have been read, only the other entries are described. *)
Definition reload_additional_info (s : SessionState) : SessionState :=
  let profile := profile_to_edit s in
  if bool_decide (additional_info_list s = None)
     || bool_decide (profile !! "id" ≠ current_edit_profile_id s)
  then
    let additional_info_data :=
      dict_get profile "additional_info" (VList [""]) in
    let s := match additional_info_data with
             | VStr str => set_additional_info_list [str] s
             | VList l => set_additional_info_list l s
             end in
    set_current_edit_profile_id (profile !! "id") s
  else s.

(** The sidebar when [edit_mode] is true: the "edit_form" form and the
    cancel button below it.  The prefilled widgets are represented by
    what they return; Streamlit's refusal of a multiselect whose default
    (the stored selection) is not among its options is left out, so the
    model describes the edits of records whose selections it accepts. *)
Definition edit_form (db : option Client) (ui : Inputs) (user_id : string)
    : Script unit :=
  _ ← st_header "Edit Profile";
  _ ← st_markdown "Update the fields for your selected profile.";
  s ← get_session;
  let profile := profile_to_edit s in
  _ ← modify_session reload_additional_info;
  lst ← additional_info_block ui;
  let submitted := pressed ui UpdateCV in
  _ ← when submitted
        (let cleaned_additional_info := clean_additional_info lst in
         if nothing_filled ui cleaned_additional_info then
           st_warning "Please fill out at least one field to update your CV."
         else
           let profile_data := build_profile_data ui cleaned_additional_info in
           i ← subscript profile "id";
           _ ← save_profile db profile_data user_id (Some i);
           _ ← reset_edit;
           st_rerun);
  when (pressed ui CancelEdit)
    (_ ← reset_edit;
     st_rerun).

(** The main body: the listing, flat or grouped. *)
Definition view_all_profiles (db : option Client) (ui : Inputs)
    (user_id : string) (is_admin : bool) : Script unit :=
  _ ← st_header "View All Profiles";
  _ ← st_markdown "Browse through the professional profiles created by others.";
  all_profiles ← load_profiles db;
  match all_profiles with
  | _ :: _ =>
      let group_by_option := ui_group_by ui in
      match group_by_option with
      | ByNone =>
          for_each all_profiles
            (λ profile,
               display_profile ui profile user_id is_admin "no_grouping")
      | _ =>
          let grouped_profiles :=
            group_profiles (lower (group_label group_by_option)) all_profiles in
          for_each grouped_profiles
            (λ '(group_name, profiles_in_group),
               _ ← st_subheader (group_heading group_name profiles_in_group);
               for_each profiles_in_group
                 (λ profile,
                    display_profile ui profile user_id is_admin group_name))
      end
  | [] =>
      st_info "No profiles have been published yet. Be the first to create one!"
  end.

(** The session defaults set on the first run. *)
Definition init_session : Script unit :=
  s ← get_session;
  when (bool_decide (edit_mode s = None))
    (_ ← modify_session (set_edit_mode false);
     _ ← modify_session (set_profile_to_edit ∅);
     modify_session (set_additional_info_list [""])).

(** [if not st.session_state.edit_mode] *)
Definition editing (s : SessionState) : bool :=
  match edit_mode s with
  | Some b => b
  | None => false
  end.

(** One run of the script (the emoji of the title is left out). *)
Definition main (ui : Inputs) : Script unit :=
  _ ← st_title "The Community CV Bank";
  _ ← st_markdown "### Create and share your professional profile with everyone!";
  db ← initialize_firebase;
  let user_id := "admin_456" in
  let admin_id := "admin_456" in
  let is_admin := bool_decide (user_id = admin_id) in
  _ ← init_session;
  match db with
  | Some _ =>
      s ← get_session;
      _ ← (if negb (editing s) then create_form db ui user_id
           else edit_form db ui user_id);
      view_all_profiles db ui user_id is_admin
  | None =>
      st_error
        "The application cannot function without a successful database connection. Please check your configuration."
  end.

(** The presentation state of a session. *)
Inductive Mode := Composing | Editing.

Definition mode (w : World) : Mode :=
  if editing (session_state w) then Editing else Composing.

(** * Notions used in the statements *)

(** A text with nothing but white space in it (the empty text included):
    a blank entry. *)
Fixpoint blank (s : string) : bool :=
  match s with
  | EmptyString => true
  | String c s' => isspace c && blank s'
  end.

(** [profile_data] after [profile_data["user_id"] = user_id] *)
Definition stamped (user_id : string) (profile_data : dict) : dict :=
  <["user_id" := VStr user_id]> profile_data.

(** [save_profile] takes the create branch: no [doc_id], or a false one. *)
Definition creates (doc_id : option value) : bool :=
  match doc_id with
  | None => true
  | Some i => negb (truthy i)
  end.

(** A message that reports a failure. *)
Definition is_error (e : Element) : bool :=
  match e with
  | Text Error _ | TextExn Error _ _ => true
  | _ => false
  end.

(** A collection in which one document carries a field named "id" and
    another does not. *)
Definition shadow_world : World :=
  mkWorld (Some ValidKey) true
    (mkFirestore
       [("doc1", {["id" := VStr "doc2"; "name" := VStr "Ann"]});
        ("doc2", {["name" := VStr "Bob"]})]
       [Serves "doc3"; Serves "doc4"] [])
    (mkSession (Some false) ∅ (Some [""]) None) [].

(** A collection of two profiles, one of them owned by somebody else
    than the acting user, with a service that serves two requests. *)
Definition two_profiles : World :=
  mkWorld (Some ValidKey) true
    (mkFirestore
       [("doc1", {["name" := VStr "Ann"; "user_id" := VStr "admin_456"]});
        ("doc2", {["name" := VStr "Bob"; "user_id" := VStr "bob_123"]})]
       [Serves "doc3"; Serves "doc4"] [])
    (mkSession (Some false) ∅ (Some [""]) None) [].

(** [grouped_profiles.get(key)] *)
Fixpoint group_of (key : string) (grouped : list (string * list dict))
    : option (list dict) :=
  match grouped with
  | [] => None
  | (k, ps) :: rest => if decide (k = key) then Some ps else group_of key rest
  end.

(** The members of a group, none when there is no such group. *)
Definition members (key : string) (grouped : list (string * list dict))
    : list dict :=
  default [] (group_of key grouped).

(** How many times a profile holds [key] among its values. *)
Definition holds (key : string) (keys : list string) : nat :=
  length (filter (λ x, x = key) keys).

(** Every group has a member, and no two groups share a key. *)
Definition well_grouped (grouped : list (string * list dict)) : Prop :=
  NoDup grouped.*1 ∧ Forall (λ g, g.2 ≠ []) grouped.

(** The loops of [group_profiles], started from any dict of groups. *)
Definition group_into (field : string) (grouped : list (string * list dict))
    (all_profiles : list dict) : list (string * list dict) :=
  foldl (λ grouped profile,
           foldl (λ grouped key, add_to_group key profile grouped)
                 grouped (group_key field profile))
        grouped all_profiles.

Definition create_prelude : list Element :=
  [Text Header "Create Your Profile";
   Text Markdown "Fill out the form to publish your CV.";
   Text Write "Additional Information (e.g., Achievements, Certifications)"].

Definition edit_prelude : list Element :=
  [Text Header "Edit Profile";
   Text Markdown "Update the fields for your selected profile.";
   Text Write "Additional Information (e.g., Achievements, Certifications)"].

(** The world once a form has been drawn and its boxes read back:
    [s] with the list read, and the form's elements on the page. *)
Definition form_world (els : list Element) (lst : list string)
    (s : SessionState) (w : World) : World :=
  mkWorld (firebaseConfig w) (firebase_apps w) (firestore w)
    (set_additional_info_list lst s) (page w ++ els).

(** The list the edit form starts from. *)
Definition edit_list (s : SessionState) : list string :=
  default [] (additional_info_list (reload_additional_info s)).

(** A run in which none of the edit form's buttons reports a click. *)
Definition edit_idle (ui : Inputs) : Prop :=
  ui_pressed ui ≠ Some AddBlock ∧ ui_pressed ui ≠ Some UpdateCV
  ∧ ui_pressed ui ≠ Some CancelEdit.

(** A submission with nothing in it: every text field is empty and no
    entry of the additional information is other than blank. *)
Definition empty_submission (ui : Inputs) (lst : list string) : Prop :=
  ui_name ui = EmptyString ∧ ui_contact ui = EmptyString
  ∧ ui_summary ui = EmptyString ∧ ui_experience_text ui = EmptyString
  ∧ ui_education ui = EmptyString ∧ ui_skills ui = EmptyString
  ∧ Forall (λ item, blank item = true) lst.

#[global] Instance empty_submission_dec ui lst :
  Decision (empty_submission ui lst).
Proof. unfold empty_submission. apply _. Defined.

(** The record of "doc1" as a listing of [two_profiles] returns it. *)
Definition ann : dict :=
  {["id" := VStr "doc1"; "name" := VStr "Ann";
    "user_id" := VStr "admin_456"]}.

(** A session that is editing Ann's profile, over [two_profiles]. *)
Definition editing_world : World :=
  mkWorld (Some ValidKey) true (firestore two_profiles)
    (mkSession (Some true) ann (Some [""]) None) [].

(** A submission with nothing but white space typed into the one
    information box, and one with a name and a certificate. *)
Definition blank_submission (b : Button) : Inputs :=
  mkInputs "" "" [] [] [] "" "" "" "" ["  "] (Some b) ByNone.

Definition named_submission (b : Button) : Inputs :=
  mkInputs "Ann B" "" [] ["IT"; "Finance"] [] "" "" "" "" ["Certified X"]
    (Some b) ByNone.

(** [c] keeps [I]: from a world where [I] holds, [c] ends, normally or
    not, in a world where it holds. *)
Definition keeps {A} (I : World → Prop) (c : Script A) : Prop :=
  ∀ w, I w → I (c w).2.

(** What the listing half of the script can do to the world: put
    elements on the page, send read requests, and enter edit mode. *)
Record view_stable (I : World → Prop) : Prop := {
  stable_page : ∀ w p, I w → I (with_page p w);
  stable_read : ∀ w rest,
    I w →
    I (with_firestore
         (mkFirestore (documents (firestore w)) rest
            (requests (firestore w) ++ [ReqStream])) w);
  stable_mode : ∀ w,
    I w → I (with_session (set_edit_mode true (session_state w)) w);
  stable_profile : ∀ w p,
    I w → I (with_session (set_profile_to_edit p (session_state w)) w);
}.

(** [initialize_firebase] will hand out a client. *)
Definition connected (w : World) : bool :=
  match firebaseConfig w with
  | Some ValidKey => true
  | Some (InvalidKey _) => firebase_apps w
  | None => false
  end.

(** What [main] does before it draws the sidebar. *)
Definition main_prelude (w : World) : list Element :=
  [Text Title "The Community CV Bank";
   Text Markdown
     "### Create and share your professional profile with everyone!"]
  ++ (if firebase_apps w then []
      else [Text Info "Firebase initialized successfully."]).

(** [c] does nothing but put [els] on the page. *)
Definition emits (c : Script unit) (els : list Element) : Prop :=
  ∀ w, c w = (Returned (), with_page (page w ++ els) w).

(** The elements that structure the listing: group headings, and the
    edit button that closes the card of a profile. *)
Definition landmark (e : Element) : bool :=
  match e with
  | Text Subheader _ | EditButton _ _ => true
  | _ => false
  end.

(** [c] only writes to the page, and [o] is what it writes of
    headings and buttons, in order. *)
Definition outlines (c : Script unit) (o : list Element) : Prop :=
  ∃ els, emits c els ∧ filter (λ e, landmark e = true) els = o.

(** The edit button of the card of a record. *)
Definition card_button (key_suffix : string) (profile : dict)
    : list Element :=
  match profile !! "id" with
  | Some i => [EditButton i key_suffix]
  | None => []
  end.

(** The headings and cards of a listing grouped by the values the
    records hold under the key [field]: group after group, the heading
    and then the cards of the members. *)
Definition grouped_outline (field : string) (all_profiles : list dict)
    : list Element :=
  concat ((λ '(group_name, profiles_in_group),
             Text Subheader (group_heading group_name profiles_in_group)
             :: concat (card_button group_name <$> profiles_in_group))
          <$> group_profiles field all_profiles).

(** The headings and cards of the listing for each choice of the select
    box: a card for each record without grouping, and otherwise the
    grouping by the key under which the forms store the selection of
    that name. *)
Definition outline (g : GroupBy) (all_profiles : list dict) : list Element :=
  match g with
  | ByNone => concat (card_button "no_grouping" <$> all_profiles)
  | ByExperience => grouped_outline "experience" all_profiles
  | ByProfession => grouped_outline "profession" all_profiles
  | ByExpertise => grouped_outline "expertise" all_profiles
  end.

(** A collection of four profiles: two with professions, one saved with
    no profession selected, and one (an older record) without the
    field. *)
Definition listing_world : World :=
  mkWorld (Some ValidKey) true
    (mkFirestore
       [("doc1", {["name" := VStr "Ann";
                   "profession" := VList ["IT"; "Finance"]]});
        ("doc2", {["name" := VStr "Bob"; "profession" := VList ["IT"]]});
        ("doc3", {["name" := VStr "Cy"; "profession" := VList []]});
        ("doc4", {["name" := VStr "Di"]})]
       [Serves "doc5"; Serves "doc6"] [])
    (mkSession (Some false) ∅ (Some [""]) None) [].

(** A run in which the user only picks a grouping. *)
Definition browse (g : GroupBy) : Inputs :=
  mkInputs "" "" [] [] [] "" "" "" "" [] None g.

(** A session with three information boxes, editing Ann's profile. *)
Definition three_boxes : World :=
  mkWorld (Some ValidKey) true (firestore two_profiles)
    (mkSession (Some true) ann (Some [""; ""; ""]) (Some (VStr "doc1"))) [].

Definition certified (b : Button) : Inputs :=
  mkInputs "Ann" "" [] [] [] "" "" "" "" [""; "Certified X"; "  "]
    (Some b) ByNone.

(** What a whole run can do to the world: draw, change the session,
    mark the application initialised, send a read request, and save a
    dict built from a form as the placeholder user. *)
Record run_stable (I : World → Prop) : Prop := {
  run_page : ∀ w p, I w → I (with_page p w);
  run_session : ∀ w s, I w → I (with_session s w);
  run_apps : ∀ w b, I w → I (with_apps b w);
  run_read : ∀ w rest,
    I w →
    I (with_firestore
         (mkFirestore (documents (firestore w)) rest
            (requests (firestore w) ++ [ReqStream])) w);
  run_save : ∀ w ui lst doc_id,
    I w →
    I (save_profile (Some firestore_client)
         (build_profile_data ui (clean_additional_info lst))
         "admin_456" doc_id w).2;
}.

(** A document as the script writes it: owned by the placeholder user,
    with a list free of blank entries as additional information. *)
Definition well_written (d : dict) : Prop :=
  d !! "user_id" = Some (VStr "admin_456")
  ∧ ∃ l, d !! "additional_info" = Some (VList l)
         ∧ Forall (λ item, blank item = false) l.

(** The session once a run has set the defaults of a first run. *)
Definition initialised (s : SessionState) : SessionState :=
  match edit_mode s with
  | Some _ => s
  | None => mkSession (Some false) ∅ (Some [""]) (current_edit_profile_id s)
  end.

(** The two assignments of a click on "Edit Profile". *)
Definition start_edit (profile : dict) (s : SessionState) : SessionState :=
  set_profile_to_edit profile (set_edit_mode true s).

(** [c] draws, changes the session by [f] and restarts the run. *)
Definition clicks (c : Script unit) (f : SessionState → SessionState)
    : Prop :=
  ∃ els, ∀ w,
    c w = (Raised RerunException,
           with_session (f (session_state w)) (with_page (page w ++ els) w)).

(** Ann's profile, stored with two entries of additional information,
    being edited in a session that loaded it. *)
Definition ann_certified : dict :=
  {["name" := VStr "Ann"; "user_id" := VStr "admin_456";
    "additional_info" := VList ["Certified X"; "Award Y"]]}.

Definition certified_world : World :=
  mkWorld (Some ValidKey) true
    (mkFirestore [("doc1", ann_certified)] [Serves "doc2"; Serves "doc3"] [])
    (mkSession (Some true) (profile_of_doc ("doc1", ann_certified))
       (Some ["Certified X"; "Award Y"]) (Some (VStr "doc1"))) [].

(** A run in which one button is clicked and nothing is typed. *)
Definition click (b : Button) : Inputs :=
  mkInputs "" "" [] [] [] "" "" "" "" [] (Some b) ByNone.

(** An outcome that is not a crash: the run ended, or asked to be
    restarted. *)
Definition benign {A} (o : outcome A) : Prop :=
  match o with
  | Returned _ => True
  | Raised e => e = RerunException
  end.

(** A session in which the script finds what it reads: the keys are
    set, and in edit mode the profile being edited carries an "id". *)
Definition session_ready (s : SessionState) : Prop :=
  is_Some (edit_mode s) ∧ is_Some (additional_info_list s)
  ∧ (editing s = true → is_Some (profile_to_edit s !! "id")).

(** An older record, with a text as additional information, in a
    session that has just entered edit mode on it. *)
Definition legacy_world : World :=
  mkWorld (Some ValidKey) true
    (mkFirestore
       [("doc1", {["name" := VStr "Ann";
                   "additional_info" := VStr "Certified X"]})]
       [Serves "doc2"; Serves "doc3"] [])
    (mkSession (Some true)
       (profile_of_doc
          ("doc1", {["name" := VStr "Ann";
                     "additional_info" := VStr "Certified X"]}))
       (Some [""]) None) [].

(** [lst] is what the boxes of a form return when they are drawn for
    the slots [slots]: one text for each slot, the text typed into the
    box or, for a box the user left alone, the slot's own text. *)
Definition typed_into (ui : Inputs) (slots lst : list string) : Prop :=
  length lst = length slots
  ∧ ∀ k slot, slots !! k = Some slot →
      lst !! k = Some (default slot (ui_infos ui !! k)).

(** An empty collection, before the first publish, in a new session. *)
Definition first_publish : World :=
  mkWorld (Some ValidKey) true
    (mkFirestore [] [Serves "doc1"; Serves "doc2"] [])
    (mkSession (Some false) ∅ (Some [""]) None) [].

(** A session outside edit mode that holds three information boxes,
    over the collection of [two_profiles]. *)
Definition composing_boxes : World :=
  mkWorld (Some ValidKey) true (firestore two_profiles)
    (mkSession (Some false) ∅ (Some [""; ""; ""]) None) [].

(** [data] is the submission of a form as the store is asked to write
    it: every text as typed, the three selections, the entries of [lst]
    that are not blank, and [user_id] as owner. *)
Definition carries (ui : Inputs) (lst : list string) (user_id : string)
    (data : dict) : Prop :=
  data !! "name" = Some (VStr (ui_name ui))
  ∧ data !! "contact" = Some (VStr (ui_contact ui))
  ∧ data !! "summary" = Some (VStr (ui_summary ui))
  ∧ data !! "experience" = Some (VList (ui_experience ui))
  ∧ data !! "profession" = Some (VList (ui_profession ui))
  ∧ data !! "expertise" = Some (VList (ui_expertise ui))
  ∧ data !! "experience_text" = Some (VStr (ui_experience_text ui))
  ∧ data !! "education" = Some (VStr (ui_education ui))
  ∧ data !! "skills" = Some (VStr (ui_skills ui))
  ∧ data !! "additional_info"
    = Some (VList (filter (λ item, blank item = false) lst))
  ∧ data !! "user_id" = Some (VStr user_id).

(** * Properties *)

(** ** Text *)

Lemma lstrip_head (s : string) :
  lstrip s = EmptyString ∨ ∃ c t, lstrip s = String c t ∧ isspace c = false.
Proof.
  induction s as [|c s IH]; simpl; [by left|].
  destruct (isspace c) eqn:Hc; [done|]. right. by exists c, s.
Qed.

Lemma lstrip_empty (s : string) : lstrip s = EmptyString ↔ blank s = true.
Proof.
  induction s as [|c s IH]; simpl; [done|].
  destruct (isspace c); simpl; [done|]. split; discriminate.
Qed.

Lemma rstrip_empty (s : string) : rstrip s = EmptyString ↔ blank s = true.
Proof.
  induction s as [|c s IH]; simpl; [done|].
  destruct (rstrip s) eqn:Hr.
  - destruct (isspace c); simpl; [tauto|]. split; discriminate.
  - split; [discriminate|]. intros [_ Hb]%andb_prop.
    apply IH in Hb. discriminate.
Qed.

Lemma strip_empty (s : string) : strip s = EmptyString ↔ blank s = true.
Proof.
  unfold strip. rewrite rstrip_empty. split.
  - intros Hb. apply lstrip_empty.
    destruct (lstrip_head s) as [|(c & t & Heq & Hc)]; [done|].
    rewrite Heq in Hb. simpl in Hb. by rewrite Hc in Hb.
  - intros Hb. apply lstrip_empty in Hb. by rewrite Hb.
Qed.

Lemma str_truthy_false (s : string) : str_truthy s = false ↔ s = EmptyString.
Proof. by destruct s. Qed.

Lemma str_truthy_strip (s : string) : str_truthy (strip s) = negb (blank s).
Proof.
  destruct (blank s) eqn:Hb; simpl.
  - apply str_truthy_false. by apply strip_empty.
  - destruct (str_truthy (strip s)) eqn:Ht; [done|].
    apply str_truthy_false, strip_empty in Ht. congruence.
Qed.

(** The cleaned list keeps exactly the entries that are not blank. *)
Lemma clean_additional_info_spec (lst : list string) :
  clean_additional_info lst = filter (λ item, blank item = false) lst.
Proof.
  unfold clean_additional_info. apply list_filter_iff. intros item.
  rewrite str_truthy_strip. by destruct (blank item).
Qed.

Lemma clean_additional_info_nil (lst : list string) :
  clean_additional_info lst = [] ↔ Forall (λ item, blank item = true) lst.
Proof.
  rewrite clean_additional_info_spec. induction lst as [|x l IH]; [done|].
  rewrite filter_cons, Forall_cons. destruct (decide (blank x = false)) as [Hx|Hx].
  - split; [done|]. intros [? _]. congruence.
  - apply not_false_is_true in Hx. rewrite IH. tauto.
Qed.

(** ** Documents and the store *)

Lemma dict_update_lookup (a b : dict) (k : string) :
  dict_update a b !! k =
  match b !! k with
  | Some v => Some v
  | None => a !! k
  end.
Proof.
  unfold dict_update. rewrite lookup_union. destruct (b !! k), (a !! k); done.
Qed.

(** Updating with entries the document already holds changes nothing. *)
Lemma dict_update_same (a b : dict) : b ⊆ a → dict_update a b = a.
Proof. intros Hsub. unfold dict_update. by apply map_subseteq_union. Qed.

Lemma update_document_ids doc_id data docs docs' :
  update_document doc_id data docs = Some docs' →
  doc_ids docs' = doc_ids docs.
Proof.
  revert docs'. induction docs as [|[i d] docs IH]; intros docs'; simpl; [done|].
  case_decide.
  - intros [= <-]. done.
  - destruct (update_document doc_id data docs) as [r|]; simpl; [|done].
    intros [= <-]. unfold doc_ids in *. simpl. f_equal. by apply IH.
Qed.

Lemma update_document_None doc_id data docs :
  update_document doc_id data docs = None ↔ doc_id ∉ doc_ids docs.
Proof.
  induction docs as [|[i d] docs IH]; simpl.
  - split; [intros _; apply not_elem_of_nil | done].
  - unfold doc_ids in *. simpl. rewrite not_elem_of_cons. case_decide.
    + split; [done|]. intros [? _]. congruence.
    + destruct (update_document doc_id data docs); simpl.
      * split; [done|]. intros [_ Hn]. by apply IH in Hn.
      * split; [|done]. intros _. split; [congruence|]. by apply IH.
Qed.

(** With unique identifiers, an update rewrites the one document that
    carries the identifier, in place. *)
Lemma update_document_at doc_id data docs k d :
  NoDup (doc_ids docs) →
  docs !! k = Some (doc_id, d) →
  update_document doc_id data docs
  = Some (<[k := (doc_id, dict_update d data)]> docs).
Proof.
  revert k. induction docs as [|[i d0] docs IH]; intros k Hnd Hk; [done|].
  unfold doc_ids in *. simpl in *. apply NoDup_cons in Hnd as [Hni Hnd].
  destruct k as [|k]; simpl in *.
  - injection Hk as -> ->. by rewrite decide_True.
  - rewrite decide_False.
    + by rewrite (IH k Hnd Hk).
    + intros ->. apply Hni. apply list_elem_of_fmap.
      exists (doc_id, d). split; [done|]. by eapply list_elem_of_lookup_2.
Qed.

(** ** The gateway *)

Ltac open_world w :=
  destruct w as [cfg apps [docs fts reqs] ss pg]; simpl in *; subst.

Ltac run_script :=
  unfold save_profile, load_profiles, try_except, collection_add,
    document_update, collection_stream, call, serve_add, serve_update,
    serve_stream, next_fate, st_success, st_error, emit, raise,
    mbind, mret, Script_bind, Script_ret,
    with_firestore, with_page, with_session, with_apps; simpl.

Lemma save_profile_create (c : Client) (data : dict) (user_id : string)
    (doc_id : option value) (w : World) (new_id : string) (rest : list fate) :
  creates doc_id = true →
  fates (firestore w) = Serves new_id :: rest →
  new_id ∉ doc_ids (documents (firestore w)) →
  save_profile (Some c) data user_id doc_id w
  = (Returned (stamped user_id data),
     mkWorld (firebaseConfig w) (firebase_apps w)
       (mkFirestore
          (documents (firestore w) ++ [(new_id, stamped user_id data)])
          rest
          (requests (firestore w) ++ [ReqAdd (stamped user_id data)]))
       (session_state w)
       (page w ++ [Text Success "CV published successfully!"])).
Proof.
  intros Hc Hf Hnew. open_world w.
  assert (Hrun : ∀ p,
    (_ ← collection_add (stamped user_id data);
     st_success "CV published successfully!")
      (mkWorld cfg apps (mkFirestore docs (Serves new_id :: rest) reqs) ss p)
    = (Returned (),
       mkWorld cfg apps
         (mkFirestore (docs ++ [(new_id, stamped user_id data)]) rest
            (reqs ++ [ReqAdd (stamped user_id data)]))
         ss (p ++ [Text Success "CV published successfully!"]))).
  { intros p. run_script. by rewrite decide_False. }
  unfold save_profile, try_except, mbind, Script_bind at 1. fold (stamped user_id data).
  destruct doc_id as [i|]; simpl in Hc.
  - apply negb_true_iff in Hc. rewrite Hc. unfold mbind in Hrun. by rewrite Hrun.
  - unfold mbind in Hrun. by rewrite Hrun.
Qed.

Lemma save_profile_update (c : Client) (data : dict) (user_id : string)
    (i : string) (w : World) (a : string) (rest : list fate)
    (docs' : list (string * dict)) :
  i ≠ EmptyString →
  fates (firestore w) = Serves a :: rest →
  update_document i (stamped user_id data) (documents (firestore w))
  = Some docs' →
  save_profile (Some c) data user_id (Some (VStr i)) w
  = (Returned (stamped user_id data),
     mkWorld (firebaseConfig w) (firebase_apps w)
       (mkFirestore docs' rest
          (requests (firestore w) ++ [ReqUpdate i (stamped user_id data)]))
       (session_state w)
       (page w ++ [Text Success "CV updated successfully!"])).
Proof.
  intros Hi Hf Hup. open_world w. destruct i as [|ch i]; [done|].
  run_script. fold (stamped user_id data). by rewrite Hup.
Qed.

(** Whatever happens, [save_profile] returns; it touches nothing but
    the store and the page; and it either reports an error and leaves
    the documents as they were, or reports success after the one write
    it was asked for. *)
Lemma save_profile_cases (db : option Client) (data : dict)
    (user_id : string) (doc_id : option value) (w : World) :
  ∃ (r : dict) (w' : World),
    save_profile db data user_id doc_id w = (Returned r, w')
    ∧ session_state w' = session_state w
    ∧ firebase_apps w' = firebase_apps w
    ∧ firebaseConfig w' = firebaseConfig w
    ∧ ((∃ e, is_error e = true ∧ page w' = page w ++ [e]
             ∧ documents (firestore w') = documents (firestore w))
       ∨ (∃ new_id, creates doc_id = true
             ∧ (new_id ∉ doc_ids (documents (firestore w)))
             ∧ documents (firestore w')
               = documents (firestore w) ++ [(new_id, stamped user_id data)]
             ∧ page w' = page w ++ [Text Success "CV published successfully!"])
       ∨ (∃ i, doc_id = Some (VStr i) ∧ i ≠ EmptyString
             ∧ update_document i (stamped user_id data)
                 (documents (firestore w))
               = Some (documents (firestore w'))
             ∧ page w' = page w ++ [Text Success "CV updated successfully!"])).
Proof.
  open_world w.
  assert (Herr : ∀ e (p : list Element) (ds : list (string * dict)), is_error e = true →
            ∃ e', is_error e' = true ∧ p ++ [e] = p ++ [e'] ∧ ds = ds).
  { intros e p ds He. by exists e. }
  destruct db as [c|].
  2:{ run_script. eexists _, _. split; [reflexivity|]. simpl.
      repeat split. left. by apply Herr. }
  unfold save_profile. fold (stamped user_id data).
  destruct doc_id as [[[|ch i]|[|x l]]|]; simpl;
    destruct fts as [|[n|why] fts]; run_script;
    try case_decide;
    try (destruct (update_document _ _ docs) as [docs'|] eqn:Hup); simpl;
    eexists _, _; (split; [reflexivity|]); simpl; repeat split;
    first [ left; by apply Herr
          | right; left; by eexists
          | right; right; by eexists ].
Qed.

(** A served listing returns one record per document, in stream order,
    and changes nothing but the request log. *)
Lemma load_profiles_served (c : Client) (w : World) (a : string)
    (rest : list fate) :
  fates (firestore w) = Serves a :: rest →
  load_profiles (Some c) w
  = (Returned (profile_of_doc <$> documents (firestore w)),
     with_firestore
       (mkFirestore (documents (firestore w)) rest
          (requests (firestore w) ++ [ReqStream])) w).
Proof. intros Hf. open_world w. by run_script. Qed.

(** Whatever happens, [load_profiles] returns a list, leaves the
    documents and the session alone, and either lists every document
    without a message or lists nothing under an error message. *)
Lemma load_profiles_cases (db : option Client) (w : World) :
  ∃ (rs : list dict) (w' : World),
    load_profiles db w = (Returned rs, w')
    ∧ session_state w' = session_state w
    ∧ documents (firestore w') = documents (firestore w)
    ∧ filter (λ r, is_write r = true) (requests (firestore w'))
      = filter (λ r, is_write r = true) (requests (firestore w))
    ∧ ((rs = profile_of_doc <$> documents (firestore w) ∧ page w' = page w)
       ∨ (rs = [] ∧ ∃ e, is_error e = true ∧ page w' = page w ++ [e])).
Proof.
  open_world w.
  destruct db as [c|]; [destruct fts as [|[n|why] fts]|]; run_script;
    eexists _, _; (split; [reflexivity|]); simpl;
    rewrite ?filter_app, ?filter_cons_False, ?filter_nil, ?app_nil_r
      by (simpl; congruence);
    repeat split;
    first [ by left
          | right; split; [done|]; eexists; split; [|reflexivity]; done ].
Qed.

Lemma update_document_elem doc_id data docs docs' (x : string * dict) :
  update_document doc_id data docs = Some docs' →
  x ∈ docs' →
  x ∈ docs ∨ ∃ d, (doc_id, d) ∈ docs ∧ x = (doc_id, dict_update d data).
Proof.
  revert docs'. induction docs as [|[i d] docs IH]; intros docs'; simpl; [done|].
  case_decide as Hi.
  - intros [= <-] [->|Hx]%elem_of_cons.
    + right. exists d. subst. split; [left|done].
    + left. by right.
  - destruct (update_document doc_id data docs) as [r|]; simpl; [|done].
    intros [= <-] [->|Hx]%elem_of_cons.
    + left. left.
    + destruct (IH r eq_refl Hx) as [?|(d' & ? & ?)].
      * left. by right.
      * right. exists d'. split; [by right|done].
Qed.

Lemma stamped_owner (user_id : string) (data : dict) :
  stamped user_id data !! "user_id" = Some (VStr user_id).
Proof. unfold stamped. by rewrite lookup_insert_eq. Qed.

Lemma dict_update_stamped_owner (d data : dict) (user_id : string) :
  dict_update d (stamped user_id data) !! "user_id" = Some (VStr user_id).
Proof. by rewrite dict_update_lookup, stamped_owner. Qed.

Lemma profile_of_doc_lookup (i : string) (d : dict) (k : string) :
  profile_of_doc (i, d) !! k =
  match d !! k with
  | Some v => Some v
  | None => if decide (k = "id") then Some (VStr i) else None
  end.
Proof.
  unfold profile_of_doc. rewrite dict_update_lookup. simpl.
  destruct (d !! k); [done|]. case_decide as Hk.
  - subst. by rewrite lookup_singleton_eq.
  - by rewrite lookup_singleton_ne.
Qed.

(** C10: a served listing gives one record per document; when the
    stored document has a field named "id", the record's "id" is that
    field's value, and only a document without such a field gets its
    document identifier as "id". *)
Theorem load_profiles_stored_id_shadows (c : Client) (w : World)
    (a : string) (rest : list fate) :
  fates (firestore w) = Serves a :: rest →
  ∃ (rs : list dict) (w' : World),
    load_profiles (Some c) w = (Returned rs, w')
    ∧ length rs = length (documents (firestore w))
    ∧ ∀ k i d, documents (firestore w) !! k = Some (i, d) →
        ∃ r, rs !! k = Some r
             ∧ (∀ v, d !! "id" = Some v → r !! "id" = Some v)
             ∧ (d !! "id" = None → r !! "id" = Some (VStr i)).
Proof.
  intros Hf. eexists _, _. split; [by eapply load_profiles_served|].
  split; [by rewrite length_fmap|]. intros k i d Hk.
  exists (profile_of_doc (i, d)). rewrite list_lookup_fmap, Hk.
  split; [done|]. rewrite profile_of_doc_lookup.
  split; [by intros v ->|by intros ->].
Qed.

Lemma load_profiles_stored_id_shadows_witness :
  ∃ (rs : list dict) (w' : World),
    load_profiles (Some firestore_client) shadow_world = (Returned rs, w')
    ∧ length rs = length (documents (firestore shadow_world))
    ∧ ∀ k i d, documents (firestore shadow_world) !! k = Some (i, d) →
        ∃ r, rs !! k = Some r
             ∧ (∀ v, d !! "id" = Some v → r !! "id" = Some v)
             ∧ (d !! "id" = None → r !! "id" = Some (VStr i)).
Proof.
  apply (load_profiles_stored_id_shadows firestore_client shadow_world
           "doc3" [Serves "doc4"]).
  reflexivity.
Defined.

(** C8: at a document that has an "id" field of its own, the record that
    [load_profiles] returns for document "doc1" carries "doc2", the
    stored field, and the document's identifier is nowhere in it. *)
Theorem load_profiles_loses_identifier :
  (load_profiles (Some firestore_client) shadow_world).1
  = Returned [ {["id" := VStr "doc2"; "name" := VStr "Ann"]} ;
               {["id" := VStr "doc2"; "name" := VStr "Bob"]} ].
Proof. vm_compute. reflexivity. Qed.

Lemma two_profiles_NoDup : NoDup (doc_ids (documents (firestore two_profiles))).
Proof. refine (bool_decide_unpack _ _). vm_compute. exact I. Defined.

(** C3: when the service serves the request, a save with the identifier
    of an existing document rewrites that document in place, its fields
    overwritten with those of the new data, and no identifier of the
    collection changes; a save without an identifier (or with a false
    one) adds one document to the collection, whatever the collection
    holds, under the identifier the store assigns, owned by the acting
    user, and leaves the other documents as they were. *)
Theorem save_profile_update_or_create (c : Client) (data : dict)
    (user_id : string) (w : World) (a : string) (rest : list fate) :
  fates (firestore w) = Serves a :: rest →
  (∀ k i d,
     NoDup (doc_ids (documents (firestore w))) →
     i ≠ EmptyString →
     documents (firestore w) !! k = Some (i, d) →
     ∃ r w' d',
       save_profile (Some c) data user_id (Some (VStr i)) w = (Returned r, w')
       ∧ documents (firestore w') = <[k := (i, d')]> (documents (firestore w))
       ∧ doc_ids (documents (firestore w')) = doc_ids (documents (firestore w))
       ∧ (∀ key v, stamped user_id data !! key = Some v → d' !! key = Some v)
       ∧ (∀ key, stamped user_id data !! key = None → d' !! key = d !! key))
  ∧ (∀ doc_id,
       creates doc_id = true →
       a ∉ doc_ids (documents (firestore w)) →
       ∃ r w' d',
         save_profile (Some c) data user_id doc_id w = (Returned r, w')
         ∧ documents (firestore w') ≡ₚ (a, d') :: documents (firestore w)
         ∧ d' = <["user_id" := VStr user_id]> data
         ∧ d' !! "user_id" = Some (VStr user_id)
         ∧ (∀ key, key ≠ "user_id" → d' !! key = data !! key)).
Proof.
  intros Hf. split.
  - intros k i d Hnd Hi Hk.
    pose proof (update_document_at i (stamped user_id data) _ k d Hnd Hk) as Hup.
    eexists _, _, (dict_update d (stamped user_id data)).
    split; [by eapply save_profile_update|]. simpl.
    split; [done|]. split; [by eapply update_document_ids|].
    split; intros key; [intros v|]; intros Hkey;
      by rewrite dict_update_lookup, Hkey.
  - intros doc_id Hc Hnew. eexists _, _, _.
    split; [by eapply save_profile_create|]. simpl.
    split; [by rewrite <- Permutation_cons_append|].
    split; [reflexivity|]. split; [apply stamped_owner|].
    intros key Hkey. unfold stamped. by rewrite lookup_insert_ne.
Qed.

Lemma save_profile_update_or_create_witness :
  (∃ r w' d',
     save_profile (Some firestore_client) {["name" := VStr "Eve"]}
       "admin_456" (Some (VStr "doc2")) two_profiles = (Returned r, w')
     ∧ documents (firestore w')
       = <[1 := ("doc2", d')]> (documents (firestore two_profiles))
     ∧ doc_ids (documents (firestore w'))
       = doc_ids (documents (firestore two_profiles))
     ∧ (∀ key v, stamped "admin_456" {["name" := VStr "Eve"]} !! key = Some v
                 → d' !! key = Some v)
     ∧ (∀ key, stamped "admin_456" {["name" := VStr "Eve"]} !! key = None
               → d' !! key
                 = ({["name" := VStr "Bob"; "user_id" := VStr "bob_123"]} : dict)
                   !! key))
  ∧ (∃ r w' d',
       save_profile (Some firestore_client) {["name" := VStr "Eve"]}
         "admin_456" None first_publish = (Returned r, w')
       ∧ documents (firestore w')
         ≡ₚ ("doc1", d') :: documents (firestore first_publish)
       ∧ d' = <["user_id" := VStr "admin_456"]> {["name" := VStr "Eve"]}
       ∧ d' !! "user_id" = Some (VStr "admin_456")
       ∧ (∀ key, key ≠ "user_id"
                 → d' !! key = ({["name" := VStr "Eve"]} : dict) !! key)).
Proof.
  split.
  - apply (save_profile_update_or_create firestore_client
             {["name" := VStr "Eve"]} "admin_456" two_profiles
             "doc3" [Serves "doc4"]).
    + reflexivity.
    + exact two_profiles_NoDup.
    + discriminate.
    + reflexivity.
  - apply (save_profile_update_or_create firestore_client
             {["name" := VStr "Eve"]} "admin_456" first_publish
             "doc1" [Serves "doc2"]).
    + reflexivity.
    + reflexivity.
    + refine (bool_decide_unpack _ _). vm_compute. exact I.
Defined.

(** C1: a save never leaves behind a document it wrote with another
    owner than the acting user: after any call, every document is either
    exactly as it was or owned by [user_id], whatever owner the submitted
    data named.  A served create, into any collection, stores the data
    with the acting user as owner and is listed back with that owner
    among the records listed before; a served update leaves the acting
    user as owner of the updated document. *)
Theorem save_profile_owner_is_acting_user (c : Client) (data : dict)
    (user_id : string) :
  (∀ db doc_id w, ∃ r w',
     save_profile db data user_id doc_id w = (Returned r, w')
     ∧ ∀ j dj, (j, dj) ∈ documents (firestore w') →
         (j, dj) ∈ documents (firestore w)
         ∨ dj !! "user_id" = Some (VStr user_id))
  ∧ (∀ w doc_id a b rest,
       creates doc_id = true →
       fates (firestore w) = Serves a :: Serves b :: rest →
       a ∉ doc_ids (documents (firestore w)) →
       ∃ r w' rs w'' d' rec,
         save_profile (Some c) data user_id doc_id w = (Returned r, w')
         ∧ load_profiles (Some c) w' = (Returned rs, w'')
         ∧ (a, d') ∈ documents (firestore w')
         ∧ d' !! "user_id" = Some (VStr user_id)
         ∧ (∀ key, key ≠ "user_id" → d' !! key = data !! key)
         ∧ rs ≡ₚ rec :: (profile_of_doc <$> documents (firestore w))
         ∧ rec !! "user_id" = Some (VStr user_id)
         ∧ (∀ key, key ≠ "user_id" → key ≠ "id" → rec !! key = data !! key))
  ∧ (∀ w k i d a rest,
       NoDup (doc_ids (documents (firestore w))) →
       fates (firestore w) = Serves a :: rest →
       i ≠ EmptyString →
       documents (firestore w) !! k = Some (i, d) →
       ∃ r w' d',
         save_profile (Some c) data user_id (Some (VStr i)) w = (Returned r, w')
         ∧ documents (firestore w') !! k = Some (i, d')
         ∧ d' !! "user_id" = Some (VStr user_id)).
Proof.
  split; [|split].
  - intros db doc_id w0.
    destruct (save_profile_cases db data user_id doc_id w0)
      as (r & w' & Heq & _ & _ & _ & Hcases).
    exists r, w'. split; [done|]. intros j dj Hin.
    destruct Hcases as [(e & _ & _ & Hd)|[(n & _ & _ & Hd & _)|(i' & _ & _ & Hd & _)]].
    + left. by rewrite <- Hd.
    + rewrite Hd in Hin. apply elem_of_app in Hin as [?|Hin]; [by left|].
      apply list_elem_of_singleton in Hin as [= -> ->].
      right. apply stamped_owner.
    + destruct (update_document_elem _ _ _ _ _ Hd Hin) as [?|(d0 & _ & [= -> ->])];
        [by left|].
      right. apply dict_update_stamped_owner.
  - intros w doc_id a b rest Hc Hf Hnew.
    eexists _, _, _, _, (stamped user_id data),
      (profile_of_doc (a, stamped user_id data)).
    split; [by eapply save_profile_create|].
    split; [by eapply load_profiles_served|]. simpl.
    split; [apply elem_of_app; right; by apply list_elem_of_singleton|].
    split; [apply stamped_owner|].
    split; [intros key Hkey; unfold stamped; by rewrite lookup_insert_ne|].
    split; [rewrite fmap_app; symmetry; apply Permutation_cons_append|].
    rewrite profile_of_doc_lookup, stamped_owner. split; [done|].
    intros key Hu Hi. rewrite profile_of_doc_lookup. unfold stamped.
    rewrite lookup_insert_ne by done. rewrite decide_False by done.
    by destruct (data !! key).
  - intros w k i d a rest Hnd Hf Hi Hk.
    pose proof (update_document_at i (stamped user_id data) _ k d Hnd Hk) as Hup.
    eexists _, _, _. split; [by eapply save_profile_update|]. simpl.
    split.
    + apply list_lookup_insert_eq. by eapply lookup_lt_Some.
    + apply dict_update_stamped_owner.
Qed.

Lemma save_profile_owner_is_acting_user_witness :
  (∃ r w' rs w'' d' rec,
     save_profile (Some firestore_client)
       {["name" := VStr "Eve"; "user_id" := VStr "mallory"]}
       "admin_456" None first_publish = (Returned r, w')
     ∧ load_profiles (Some firestore_client) w' = (Returned rs, w'')
     ∧ ("doc1", d') ∈ documents (firestore w')
     ∧ d' !! "user_id" = Some (VStr "admin_456")
     ∧ (∀ key, key ≠ "user_id"
               → d' !! key
                 = ({["name" := VStr "Eve"; "user_id" := VStr "mallory"]}
                    : dict) !! key)
     ∧ rs ≡ₚ rec :: (profile_of_doc <$> documents (firestore first_publish))
     ∧ rec !! "user_id" = Some (VStr "admin_456")
     ∧ (∀ key, key ≠ "user_id" → key ≠ "id"
               → rec !! key
                 = ({["name" := VStr "Eve"; "user_id" := VStr "mallory"]}
                    : dict) !! key))
  ∧ (∃ r w' d',
       save_profile (Some firestore_client)
         {["name" := VStr "Eve"; "user_id" := VStr "mallory"]}
         "admin_456" (Some (VStr "doc2")) two_profiles = (Returned r, w')
       ∧ documents (firestore w') !! 1 = Some ("doc2", d')
       ∧ d' !! "user_id" = Some (VStr "admin_456")).
Proof.
  destruct (save_profile_owner_is_acting_user firestore_client
              {["name" := VStr "Eve"; "user_id" := VStr "mallory"]}
              "admin_456") as (_ & Hcreate & Hupdate).
  split.
  - apply (Hcreate first_publish None "doc1" "doc2" []).
    + reflexivity.
    + reflexivity.
    + refine (bool_decide_unpack _ _). vm_compute. exact I.
  - apply (Hupdate two_profiles 1 "doc2"
             {["name" := VStr "Bob"; "user_id" := VStr "bob_123"]}
             "doc3" [Serves "doc4"]).
    + exact two_profiles_NoDup.
    + reflexivity.
    + discriminate.
    + reflexivity.
Defined.

(** C9: what an update with unchanged fields does to a document owned
    by somebody else.  The form data repeats the stored name of "doc2",
    the service serves the request, and yet the stored document changes:
    its owner becomes the acting user. *)
Lemma update_identical_changes_owner :
  let data : dict := {["name" := VStr "Bob"]} in
  let w' := (save_profile (Some firestore_client) data "admin_456"
               (Some (VStr "doc2")) two_profiles).2 in
  documents (firestore two_profiles) !! 1
  = Some ("doc2", {["name" := VStr "Bob"; "user_id" := VStr "bob_123"]})
  ∧ data ⊆ {["name" := VStr "Bob"; "user_id" := VStr "bob_123"]}
  ∧ documents (firestore w') !! 1
    = Some ("doc2", {["name" := VStr "Bob"; "user_id" := VStr "admin_456"]})
  ∧ documents (firestore w') ≠ documents (firestore two_profiles).
Proof.
  cbv zeta. split; [reflexivity|]. split.
  { apply map_subseteq_spec. intros key v.
    rewrite lookup_singleton_Some. intros [<- <-]. reflexivity. }
  assert (Hafter :
    documents (firestore
      (save_profile (Some firestore_client) {["name" := VStr "Bob"]}
         "admin_456" (Some (VStr "doc2")) two_profiles).2) !! 1
    = Some ("doc2", {["name" := VStr "Bob"; "user_id" := VStr "admin_456"]})).
  { vm_compute. reflexivity. }
  split; [exact Hafter|]. intros Heq. rewrite Heq in Hafter.
  vm_compute in Hafter. discriminate.
Qed.

(** An update with data the document already holds changes its owner
    entry and nothing else. *)
Lemma dict_update_stamped_same (d data : dict) (user_id : string) :
  data ⊆ d →
  dict_update d (stamped user_id data) = <["user_id" := VStr user_id]> d.
Proof.
  intros Hsub. apply map_eq. intros key. rewrite dict_update_lookup.
  unfold stamped. destruct (decide (key = "user_id")) as [->|Hne].
  - by rewrite !lookup_insert_eq.
  - rewrite !lookup_insert_ne by done.
    destruct (data !! key) as [v|] eqn:Hv; [|done].
    symmetry. by eapply lookup_weaken.
Qed.

(** C9, amended: an update whose data is already held by the document,
    made by the user who already owns it, leaves the whole collection
    as it was, whether the service serves the request or not; made by
    any user and served, it changes that one document, and of it the
    owner entry alone, which becomes the acting user. *)
Theorem save_profile_update_idempotent (c : Client) (data : dict)
    (user_id : string) (w : World) (k : nat) (i : string) (d : dict) :
  NoDup (doc_ids (documents (firestore w))) →
  i ≠ EmptyString →
  documents (firestore w) !! k = Some (i, d) →
  data ⊆ d →
  let w' := (save_profile (Some c) data user_id (Some (VStr i)) w).2 in
  (d !! "user_id" = Some (VStr user_id) →
   documents (firestore w') = documents (firestore w))
  ∧ (∀ a rest,
       fates (firestore w) = Serves a :: rest →
       documents (firestore w')
       = <[k := (i, <["user_id" := VStr user_id]> d)]>
           (documents (firestore w))).
Proof.
  intros Hnd Hi Hk Hsub. cbv zeta. split.
  - intros Howner.
    destruct (save_profile_cases (Some c) data user_id (Some (VStr i)) w)
      as (r & w' & Heq & _ & _ & _ & Hcases).
    rewrite Heq. simpl.
    destruct Hcases as [(e & _ & _ & Hd)|[(n & Hcr & _)|(i' & [= <-] & _ & Hd & _)]].
    + done.
    + simpl in Hcr. destruct i; [done|discriminate].
    + rewrite (update_document_at i _ _ k d Hnd Hk) in Hd.
      injection Hd as <-. rewrite dict_update_same.
      * by apply list_insert_id.
      * unfold stamped. by apply insert_subseteq_l.
  - intros a rest Hf.
    pose proof (update_document_at i (stamped user_id data) _ k d Hnd Hk) as Hup.
    erewrite save_profile_update; [|done|exact Hf|exact Hup]. simpl.
    by rewrite dict_update_stamped_same.
Qed.

Lemma save_profile_update_idempotent_witness :
  (documents
     (firestore
        (save_profile (Some firestore_client) {["name" := VStr "Ann"]}
           "admin_456" (Some (VStr "doc1")) two_profiles).2)
   = documents (firestore two_profiles))
  ∧ documents
      (firestore
         (save_profile (Some firestore_client) {["name" := VStr "Bob"]}
            "admin_456" (Some (VStr "doc2")) two_profiles).2)
    = <[1 := ("doc2",
              <["user_id" := VStr "admin_456"]>
                ({["name" := VStr "Bob"; "user_id" := VStr "bob_123"]}
                 : dict))]>
        (documents (firestore two_profiles)).
Proof.
  split.
  - apply (save_profile_update_idempotent firestore_client
             {["name" := VStr "Ann"]} "admin_456" two_profiles 0 "doc1"
             {["name" := VStr "Ann"; "user_id" := VStr "admin_456"]}).
    + exact two_profiles_NoDup.
    + discriminate.
    + reflexivity.
    + refine (bool_decide_unpack _ _). vm_compute. exact I.
    + reflexivity.
  - apply (save_profile_update_idempotent firestore_client
             {["name" := VStr "Bob"]} "admin_456" two_profiles 1 "doc2"
             {["name" := VStr "Bob"; "user_id" := VStr "bob_123"]}
             two_profiles_NoDup) with (a := "doc3") (rest := [Serves "doc4"]).
    + discriminate.
    + reflexivity.
    + refine (bool_decide_unpack _ _). vm_compute. exact I.
    + reflexivity.
Defined.

(** ** Grouping *)

Lemma group_of_elem key grouped ps :
  NoDup grouped.*1 →
  (key, ps) ∈ grouped ↔ group_of key grouped = Some ps.
Proof.
  induction grouped as [|[k g] rest IH]; simpl; intros Hnd.
  - split; [by intros ?%elem_of_nil|done].
  - apply NoDup_cons in Hnd as [Hk Hnd]. rewrite elem_of_cons, (IH Hnd).
    case_decide as Hd.
    + subst. split.
      * intros [[= ->]|Hg]; [done|]. exfalso. apply Hk.
        apply (IH Hnd) in Hg. apply list_elem_of_fmap. by exists (key, ps).
      * intros [= ->]. by left.
    + split; [|by right]. intros [[= ? ?]|?]; [congruence|done].
Qed.

Lemma add_to_group_keys key p grouped :
  (add_to_group key p grouped).*1
  = if decide (key ∈ grouped.*1) then grouped.*1 else grouped.*1 ++ [key].
Proof.
  induction grouped as [|[k g] rest IH]; [done|].
  cbn [add_to_group]. destruct (decide (k = key)) as [->|Hne];
    rewrite !fmap_cons; cbn [fst].
  - rewrite decide_True; [done|]. left.
  - rewrite IH. destruct (decide (key ∈ rest.*1)) as [Hin|Hnin].
    + rewrite decide_True; [done|]. by right.
    + rewrite decide_False; [done|].
      intros [?|?]%elem_of_cons; congruence.
Qed.

Lemma add_to_group_well key p grouped :
  well_grouped grouped → well_grouped (add_to_group key p grouped).
Proof.
  intros [Hnd Hne]. split.
  - rewrite add_to_group_keys. case_decide as Hin; [done|].
    apply NoDup_app. split; [done|]. split; [|apply NoDup_singleton].
    intros x Hx ->%list_elem_of_singleton. done.
  - clear Hnd. induction grouped as [|[k g] rest IH]; simpl.
    + by repeat constructor.
    + apply Forall_cons in Hne as [Hg Hne]. case_decide.
      * constructor; [|done]. simpl. by destruct g.
      * constructor; [done|]. by apply IH.
Qed.

Lemma members_add_to_group k key p grouped :
  members k (add_to_group key p grouped)
  = members k grouped ++ (if decide (key = k) then [p] else []).
Proof.
  unfold members. induction grouped as [|[k' g] rest IH]; simpl.
  - by case_decide.
  - destruct (decide (k' = key)) as [->|Hne]; simpl.
    + case_decide; simpl; [done|]. by rewrite app_nil_r.
    + destruct (decide (k' = k)) as [->|Hne'].
      * rewrite decide_False by done. simpl. by rewrite app_nil_r.
      * apply IH.
Qed.

Lemma members_add_keys k p keys grouped :
  members k (foldl (λ grouped key, add_to_group key p grouped) grouped keys)
  = members k grouped ++ replicate (holds k keys) p.
Proof.
  revert grouped. induction keys as [|key keys IH]; intros grouped; simpl.
  - by rewrite app_nil_r.
  - rewrite IH, members_add_to_group. unfold holds. rewrite filter_cons.
    rewrite <- app_assoc. f_equal. case_decide; by simpl.
Qed.

Lemma add_keys_well p keys grouped :
  well_grouped grouped →
  well_grouped (foldl (λ grouped key, add_to_group key p grouped) grouped keys).
Proof.
  revert grouped. induction keys as [|key keys IH]; intros grouped Hw; [done|].
  simpl. apply IH. by apply add_to_group_well.
Qed.

Lemma members_group_into field k all_profiles grouped :
  members k (group_into field grouped all_profiles)
  = members k grouped
    ++ concat ((λ p, replicate (holds k (group_key field p)) p)
               <$> all_profiles).
Proof.
  revert grouped. induction all_profiles as [|p ps IH]; intros grouped; simpl.
  - by rewrite app_nil_r.
  - unfold group_into in *. simpl. rewrite IH, members_add_keys.
    by rewrite <- app_assoc.
Qed.

Lemma group_into_well field all_profiles grouped :
  well_grouped grouped → well_grouped (group_into field grouped all_profiles).
Proof.
  revert grouped. induction all_profiles as [|p ps IH]; intros grouped Hw;
    [done|].
  unfold group_into in *. simpl. apply IH. by apply add_keys_well.
Qed.

(** The group of [key] lists the profiles in listing order, each as many
    times as it holds [key]. *)
Lemma members_group_profiles field k all_profiles :
  members k (group_profiles field all_profiles)
  = concat ((λ p, replicate (holds k (group_key field p)) p) <$> all_profiles).
Proof. apply (members_group_into field k all_profiles []). Qed.

Lemma group_profiles_well field all_profiles :
  well_grouped (group_profiles field all_profiles).
Proof.
  apply (group_into_well field all_profiles []).
  split; [apply NoDup_nil_2|apply Forall_nil_2].
Qed.

Lemma group_profiles_elem field all_profiles k g :
  (k, g) ∈ group_profiles field all_profiles ↔
  g ≠ [] ∧
  g = concat ((λ p, replicate (holds k (group_key field p)) p) <$> all_profiles).
Proof.
  destruct (group_profiles_well field all_profiles) as [Hnd Hne].
  rewrite (group_of_elem _ _ _ Hnd), <- members_group_profiles.
  unfold members. split.
  - intros Hg. rewrite Hg. split; [|done].
    apply (group_of_elem _ _ _ Hnd) in Hg.
    rewrite Forall_forall in Hne. apply (Hne _ Hg).
  - intros [Hg ->]. by destruct (group_of k _).
Qed.

(** ** The forms *)

Lemma reload_additional_info_list (s : SessionState) :
  additional_info_list (reload_additional_info s) = Some (edit_list s).
Proof.
  unfold edit_list, reload_additional_info.
  destruct s as [em pr [l|] cur]; simpl.
  - case_bool_decide; simpl; [|done].
    by destruct (dict_get pr "additional_info" (VList [""])).
  - by destruct (dict_get pr "additional_info" (VList [""])).
Qed.

Lemma reload_additional_info_mode (s : SessionState) :
  edit_mode (reload_additional_info s) = edit_mode s
  ∧ profile_to_edit (reload_additional_info s) = profile_to_edit s.
Proof.
  unfold reload_additional_info.
  destruct (_ || _); [|done].
  by destruct (dict_get _ "additional_info" (VList [""])).
Qed.

Ltac decide_pressed H :=
  unfold pressed; rewrite H;
  repeat first [ rewrite (bool_decide_eq_true_2 _ eq_refl)
               | rewrite bool_decide_eq_false_2 by discriminate ].

Ltac run_form :=
  unfold create_form, edit_form, additional_info_block,
    get_additional_info_list, reset_edit, when, subscript,
    st_header, st_markdown, st_write, st_warning, st_rerun,
    get_session, modify_session, emit, raise,
    mbind, mret, Script_bind, Script_ret,
    with_firestore, with_page, with_session, with_apps; simpl.

Lemma create_form_rejected db ui user_id w l0 :
  additional_info_list (session_state w) = Some l0 →
  ui_pressed ui = Some PublishCV →
  nothing_filled ui (clean_additional_info (read_infos ui l0)) = true →
  create_form db ui user_id w
  = (Returned (),
     form_world
       (create_prelude
        ++ [Text Warning
              "Please fill out at least one field to publish your CV."])
       (read_infos ui l0) (session_state w) w).
Proof.
  intros Hl Hp Hn. destruct w as [cfg apps fs ss pg]. simpl in *.
  run_form. rewrite Hl. simpl. decide_pressed Hp. rewrite Hn. simpl.
  unfold form_world. simpl. by rewrite <- !app_assoc.
Qed.

Lemma create_form_accepted db ui user_id w l0 :
  additional_info_list (session_state w) = Some l0 →
  ui_pressed ui = Some PublishCV →
  nothing_filled ui (clean_additional_info (read_infos ui l0)) = false →
  create_form db ui user_id w
  = (_ ← save_profile db
           (build_profile_data ui (clean_additional_info (read_infos ui l0)))
           user_id None;
     modify_session (set_additional_info_list [""]))
      (form_world create_prelude (read_infos ui l0) (session_state w) w).
Proof.
  intros Hl Hp Hn. destruct w as [cfg apps fs ss pg]. simpl in *.
  run_form. rewrite Hl. simpl. decide_pressed Hp. rewrite Hn.
  unfold form_world. simpl. by rewrite <- !app_assoc.
Qed.

Lemma edit_form_rejected db ui user_id w :
  let s := reload_additional_info (session_state w) in
  let lst := read_infos ui (edit_list (session_state w)) in
  ui_pressed ui = Some UpdateCV →
  nothing_filled ui (clean_additional_info lst) = true →
  edit_form db ui user_id w
  = (Returned (),
     form_world
       (edit_prelude
        ++ [Text Warning
              "Please fill out at least one field to update your CV."])
       lst s w).
Proof.
  intros s lst Hp Hn. subst s lst. destruct w as [cfg apps fs ss pg].
  simpl in *. run_form. rewrite reload_additional_info_list. simpl.
  decide_pressed Hp. rewrite Hn. simpl.
  unfold form_world. simpl. by rewrite <- !app_assoc.
Qed.

Lemma edit_form_accepted db ui user_id w i :
  let s := reload_additional_info (session_state w) in
  let lst := read_infos ui (edit_list (session_state w)) in
  ui_pressed ui = Some UpdateCV →
  nothing_filled ui (clean_additional_info lst) = false →
  profile_to_edit (session_state w) !! "id" = Some i →
  edit_form db ui user_id w
  = (_ ← save_profile db (build_profile_data ui (clean_additional_info lst))
           user_id (Some i);
     _ ← reset_edit;
     st_rerun) (form_world edit_prelude lst s w).
Proof.
  intros s lst Hp Hn Hi. subst s lst. destruct w as [cfg apps fs ss pg].
  simpl in *. run_form. rewrite reload_additional_info_list. simpl.
  decide_pressed Hp. rewrite Hn, Hi.
  unfold form_world. simpl. rewrite <- !app_assoc. simpl.
  by destruct (save_profile _ _ _ _ _) as [[r|e] w'].
Qed.

Lemma edit_form_no_id db ui user_id w :
  let s := reload_additional_info (session_state w) in
  let lst := read_infos ui (edit_list (session_state w)) in
  ui_pressed ui = Some UpdateCV →
  nothing_filled ui (clean_additional_info lst) = false →
  profile_to_edit (session_state w) !! "id" = None →
  edit_form db ui user_id w
  = (Raised (KeyError "id"), form_world edit_prelude lst s w).
Proof.
  intros s lst Hp Hn Hi. subst s lst. destruct w as [cfg apps fs ss pg].
  simpl in *. run_form. rewrite reload_additional_info_list. simpl.
  decide_pressed Hp. rewrite Hn, Hi.
  unfold form_world. simpl. by rewrite <- !app_assoc.
Qed.

Lemma edit_form_cancel db ui user_id w :
  let s := reload_additional_info (session_state w) in
  let lst := read_infos ui (edit_list (session_state w)) in
  ui_pressed ui = Some CancelEdit →
  edit_form db ui user_id w
  = (_ ← reset_edit; st_rerun) (form_world edit_prelude lst s w).
Proof.
  intros s lst Hp. subst s lst. destruct w as [cfg apps fs ss pg].
  simpl in *. run_form. rewrite reload_additional_info_list. simpl.
  decide_pressed Hp. unfold form_world. simpl. by rewrite <- !app_assoc.
Qed.

Lemma edit_form_add_block db ui user_id w :
  let s := reload_additional_info (session_state w) in
  let lst := read_infos ui (edit_list (session_state w)) in
  ui_pressed ui = Some AddBlock →
  edit_form db ui user_id w
  = (Raised RerunException, form_world edit_prelude (lst ++ [""]) s w).
Proof.
  intros s lst Hp. subst s lst. destruct w as [cfg apps fs ss pg].
  simpl in *. run_form. rewrite reload_additional_info_list. simpl.
  decide_pressed Hp. unfold form_world. simpl. by rewrite <- !app_assoc.
Qed.

Lemma edit_form_idle db ui user_id w :
  let s := reload_additional_info (session_state w) in
  let lst := read_infos ui (edit_list (session_state w)) in
  edit_idle ui →
  edit_form db ui user_id w = (Returned (), form_world edit_prelude lst s w).
Proof.
  intros s lst (Ha & Hu & Hc). subst s lst. destruct w as [cfg apps fs ss pg].
  simpl in *. run_form. rewrite reload_additional_info_list. simpl.
  unfold pressed. rewrite !bool_decide_eq_false_2 by done.
  unfold form_world. simpl. by rewrite <- !app_assoc.
Qed.

(** ** Validation of a submission *)

(** The script's test is the one the specification words. *)
Lemma nothing_filled_spec (ui : Inputs) (lst : list string) :
  nothing_filled ui (clean_additional_info lst) = true
  ↔ empty_submission ui lst.
Proof.
  unfold nothing_filled, empty_submission, any. simpl.
  rewrite andb_true_iff, !negb_true_iff, !orb_false_iff, !str_truthy_false.
  rewrite <- clean_additional_info_nil.
  destruct (clean_additional_info lst); simpl; intuition congruence.
Qed.

Lemma nothing_filled_false (ui : Inputs) (lst : list string) :
  nothing_filled ui (clean_additional_info lst) = false
  ↔ ¬ empty_submission ui lst.
Proof.
  rewrite <- nothing_filled_spec. by destruct (nothing_filled _ _).
Qed.

(** With a connected client, a create sends an [add] and an update by a
    non-empty text identifier sends an [update] for it, with the stamped
    data, whatever the service then answers. *)
Lemma save_profile_request (c : Client) (data : dict) (user_id : string)
    (doc_id : option value) (w : World) :
  requests (firestore (save_profile (Some c) data user_id doc_id w).2)
  = requests (firestore w)
    ++ match doc_id with
       | Some (VStr (String ch i)) =>
           [ReqUpdate (String ch i) (stamped user_id data)]
       | Some (VList (_ :: _)) => []
       | _ => [ReqAdd (stamped user_id data)]
       end.
Proof.
  open_world w. unfold save_profile. fold (stamped user_id data).
  destruct doc_id as [[[|ch i]|[|x l]]|]; simpl;
    destruct fts as [|[n|why] fts]; run_script;
    try case_decide;
    try (destruct (update_document _ _ docs) as [docs'|] eqn:Hup); simpl;
    by rewrite ?app_nil_r.
Qed.

Lemma modify_session_firestore f w :
  firestore (modify_session f w).2 = firestore w
  ∧ page (modify_session f w).2 = page w.
Proof. by destruct w. Qed.

Lemma reset_edit_run w :
  reset_edit w
  = (Returned (),
     with_session
       (mkSession (Some false) ∅ (Some [""])
          (current_edit_profile_id (session_state w))) w).
Proof. by destruct w as [? ? ? [? ? ? ?] ?]. Qed.

Lemma read_infos_lookup ui lst k :
  read_infos ui lst !! k
  = (λ info, default info (ui_infos ui !! k)) <$> lst !! k.
Proof. unfold read_infos. by rewrite list_lookup_imap. Qed.

(** The loop over the boxes returns what the boxes hold, and nothing
    else does. *)
Lemma read_infos_typed (ui : Inputs) (slots : list string) :
  typed_into ui slots (read_infos ui slots).
Proof.
  split; [unfold read_infos; apply length_imap|].
  intros k slot Hk. by rewrite read_infos_lookup, Hk.
Qed.

Lemma typed_into_read_infos (ui : Inputs) (slots lst : list string) :
  typed_into ui slots lst → lst = read_infos ui slots.
Proof.
  intros [Hlen Hk]. apply (list_eq_same_length _ _ (length slots)).
  - unfold read_infos. apply length_imap.
  - done.
  - intros k x y Hlt Hx Hy. destruct (lookup_lt_is_Some_2 slots k Hlt) as [slot Hs].
    rewrite (Hk k slot Hs) in Hx. rewrite read_infos_lookup, Hs in Hy.
    simpl in Hy. congruence.
Qed.

Lemma stamped_build_carries ui lst user_id :
  carries ui lst user_id
    (stamped user_id (build_profile_data ui (clean_additional_info lst))).
Proof.
  rewrite clean_additional_info_spec.
  unfold carries, stamped, build_profile_data. split_and!; by simplify_map_eq.
Qed.

(** C2: a submission, to publish or to update, that has every text
    field empty and no entry other than blank in the boxes of its
    additional information is answered with a warning and reaches the
    store with no request at all; any other submission sends the store
    the one write for the submitted data: an [add] from the create form,
    an [update] of the edited document from the edit form. *)
Theorem submission_validation (c : Client) (user_id : string) :
  (∀ ui w l0 lst,
     additional_info_list (session_state w) = Some l0 →
     ui_pressed ui = Some PublishCV →
     typed_into ui l0 lst →
     if decide (empty_submission ui lst) then
       ∃ w', create_form (Some c) ui user_id w = (Returned (), w')
             ∧ firestore w' = firestore w
             ∧ last (page w')
               = Some (Text Warning
                         "Please fill out at least one field to publish your CV.")
     else
       ∃ data,
         requests (firestore (create_form (Some c) ui user_id w).2)
         = requests (firestore w) ++ [ReqAdd data]
         ∧ carries ui lst user_id data)
  ∧ (∀ ui w i lst,
       profile_to_edit (session_state w) !! "id" = Some (VStr i) →
       i ≠ EmptyString →
       ui_pressed ui = Some UpdateCV →
       typed_into ui (edit_list (session_state w)) lst →
       if decide (empty_submission ui lst) then
         ∃ w', edit_form (Some c) ui user_id w = (Returned (), w')
               ∧ firestore w' = firestore w
               ∧ last (page w')
                 = Some (Text Warning
                           "Please fill out at least one field to update your CV.")
       else
         ∃ data,
           requests (firestore (edit_form (Some c) ui user_id w).2)
           = requests (firestore w) ++ [ReqUpdate i data]
           ∧ carries ui lst user_id data).
Proof.
  split.
  - intros ui w l0 lst Hl Hp ->%typed_into_read_infos.
    set (lst := read_infos ui l0). case_decide as He.
    + apply nothing_filled_spec in He.
      rewrite (create_form_rejected _ _ _ _ _ Hl Hp He).
      eexists. split; [reflexivity|]. split; [done|].
      unfold form_world. cbn [page]. by rewrite app_assoc, last_snoc.
    + apply nothing_filled_false in He.
      rewrite (create_form_accepted _ _ _ _ _ Hl Hp He).
      unfold mbind, Script_bind.
      pose proof (save_profile_request c
        (build_profile_data ui (clean_additional_info lst)) user_id None
        (form_world create_prelude lst (session_state w) w)) as Hreq.
      destruct (save_profile_cases (Some c)
        (build_profile_data ui (clean_additional_info lst)) user_id None
        (form_world create_prelude lst (session_state w) w))
        as (r & w' & Heq & _).
      fold lst. rewrite Heq in Hreq |- *. simpl in Hreq.
      eexists. split; [|apply stamped_build_carries].
      by destruct (modify_session_firestore (set_additional_info_list [""]) w')
        as [-> _].
  - intros ui w i lst Hid Hi Hp ->%typed_into_read_infos.
    set (lst := read_infos ui (edit_list (session_state w))).
    case_decide as He.
    + apply nothing_filled_spec in He.
      rewrite (edit_form_rejected _ _ _ _ Hp He).
      eexists. split; [reflexivity|]. split; [done|].
      unfold form_world. cbn [page]. by rewrite app_assoc, last_snoc.
    + apply nothing_filled_false in He.
      rewrite (edit_form_accepted _ _ _ _ _ Hp He Hid).
      unfold mbind, Script_bind.
      pose proof (save_profile_request c
        (build_profile_data ui (clean_additional_info lst)) user_id
        (Some (VStr i))
        (form_world edit_prelude lst
           (reload_additional_info (session_state w)) w)) as Hreq.
      destruct (save_profile_cases (Some c)
        (build_profile_data ui (clean_additional_info lst)) user_id
        (Some (VStr i))
        (form_world edit_prelude lst
           (reload_additional_info (session_state w)) w))
        as (r & w' & Heq & _).
      fold lst. rewrite Heq in Hreq |- *. simpl in Hreq.
      rewrite reset_edit_run. simpl.
      eexists. split; [|apply stamped_build_carries].
      destruct i; [done|]. exact Hreq.
Qed.

Lemma submission_validation_witness :
  (∃ w', create_form (Some firestore_client) (blank_submission PublishCV)
           "admin_456" two_profiles = (Returned (), w')
         ∧ firestore w' = firestore two_profiles
         ∧ last (page w')
           = Some (Text Warning
                     "Please fill out at least one field to publish your CV."))
  ∧ (∃ data,
       requests (firestore
                   (create_form (Some firestore_client)
                      (named_submission PublishCV) "admin_456"
                      first_publish).2)
       = requests (firestore first_publish) ++ [ReqAdd data]
       ∧ carries (named_submission PublishCV) ["Certified X"] "admin_456" data)
  ∧ (∃ w', edit_form (Some firestore_client) (blank_submission UpdateCV)
             "admin_456" editing_world = (Returned (), w')
           ∧ firestore w' = firestore editing_world
           ∧ last (page w')
             = Some (Text Warning
                       "Please fill out at least one field to update your CV."))
  ∧ (∃ data,
       requests (firestore
                   (edit_form (Some firestore_client)
                      (named_submission UpdateCV) "admin_456"
                      editing_world).2)
       = requests (firestore editing_world) ++ [ReqUpdate "doc1" data]
       ∧ carries (named_submission UpdateCV) ["Certified X"] "admin_456" data).
Proof.
  destruct (submission_validation firestore_client "admin_456")
    as [Hcreate Hedit].
  split_and!.
  - pose proof (Hcreate (blank_submission PublishCV) two_profiles [""] ["  "]
                  eq_refl eq_refl (read_infos_typed _ _)) as H.
    case_decide as He; [exact H|]. exfalso. apply He.
    refine (bool_decide_unpack _ _). vm_compute. exact I.
  - pose proof (Hcreate (named_submission PublishCV) first_publish [""]
                  ["Certified X"] eq_refl eq_refl (read_infos_typed _ _)) as H.
    case_decide as He; [|exact H]. destruct He as (Hname & _).
    discriminate Hname.
  - pose proof (Hedit (blank_submission UpdateCV) editing_world "doc1" ["  "]
                  eq_refl) as H.
    specialize (H ltac:(discriminate) eq_refl (read_infos_typed _ _)).
    case_decide as He; [exact H|]. exfalso. apply He.
    refine (bool_decide_unpack _ _). vm_compute. exact I.
  - pose proof (Hedit (named_submission UpdateCV) editing_world "doc1"
                  ["Certified X"] eq_refl) as H.
    specialize (H ltac:(discriminate) eq_refl (read_infos_typed _ _)).
    case_decide as He; [|exact H]. destruct He as (Hname & _).
    discriminate Hname.
Defined.

(** ** Round trip of the additional information *)

Lemma build_profile_data_additional_info ui cleaned :
  build_profile_data ui cleaned !! "additional_info" = Some (VList cleaned).
Proof. unfold build_profile_data. by simplify_map_eq. Qed.

Lemma clean_additional_info_not_blank lst :
  Forall (λ item, blank item = false) (clean_additional_info lst).
Proof.
  rewrite clean_additional_info_spec. apply Forall_forall.
  by intros x [? _]%list_elem_of_filter.
Qed.

(** C6: when a publish or an update is accepted and served, listing
    the profiles afterwards returns the saved record with, as its
    additional information, the entries of the boxes that are not blank,
    in the order they were submitted; no blank entry is stored.  A
    publish adds its record to those listed before, whatever the
    collection held; an update changes the record of the edited document
    and no other. *)
Theorem additional_info_round_trip (c : Client) (user_id : string) :
  (∀ ui w l0 lst a b rest,
     additional_info_list (session_state w) = Some l0 →
     ui_pressed ui = Some PublishCV →
     typed_into ui l0 lst →
     ¬ empty_submission ui lst →
     fates (firestore w) = Serves a :: Serves b :: rest →
     a ∉ doc_ids (documents (firestore w)) →
     ∃ w' rs w'' rec,
       create_form (Some c) ui user_id w = (Returned (), w')
       ∧ load_profiles (Some c) w' = (Returned rs, w'')
       ∧ rs ≡ₚ rec :: (profile_of_doc <$> documents (firestore w))
       ∧ rec !! "id" = Some (VStr a)
       ∧ rec !! "additional_info"
         = Some (VList (filter (λ item, blank item = false) lst)))
  ∧ (∀ ui w lst a b rest k i d,
       profile_to_edit (session_state w) !! "id" = Some (VStr i) →
       i ≠ EmptyString →
       ui_pressed ui = Some UpdateCV →
       typed_into ui (edit_list (session_state w)) lst →
       ¬ empty_submission ui lst →
       fates (firestore w) = Serves a :: Serves b :: rest →
       NoDup (doc_ids (documents (firestore w))) →
       documents (firestore w) !! k = Some (i, d) →
       ∃ w' rs w'' rec,
         edit_form (Some c) ui user_id w = (Raised RerunException, w')
         ∧ load_profiles (Some c) w' = (Returned rs, w'')
         ∧ rs !! k = Some rec
         ∧ rec !! "additional_info"
           = Some (VList (filter (λ item, blank item = false) lst))
         ∧ ∀ j, j ≠ k →
             rs !! j = (profile_of_doc <$> documents (firestore w)) !! j)
  ∧ (∀ lst : list string,
       filter (λ item, blank item = false) lst `sublist_of` lst
       ∧ Forall (λ item, blank item = false)
           (filter (λ item, blank item = false) lst)).
Proof.
  split; [|split].
  - intros ui w l0 lst a b rest Hl Hp ->%typed_into_read_infos He Hf Hnew.
    set (lst := read_infos ui l0) in *.
    rewrite <- clean_additional_info_spec. apply nothing_filled_false in He.
    rewrite (create_form_accepted _ _ _ _ _ Hl Hp He). fold lst.
    unfold mbind, Script_bind.
    erewrite save_profile_create; [|done|exact Hf|exact Hnew].
    eexists _, _, _, _. split; [reflexivity|].
    split; [by eapply load_profiles_served|]. simpl.
    split; [rewrite fmap_app; symmetry; apply Permutation_cons_append|].
    rewrite !profile_of_doc_lookup. unfold stamped.
    rewrite !lookup_insert_ne by done.
    rewrite build_profile_data_additional_info.
    split; [|done]. unfold build_profile_data. by simplify_map_eq.
  - intros ui w lst a b rest k i d Hid Hi Hp ->%typed_into_read_infos
      He Hf Hnd Hk.
    set (lst := read_infos ui (edit_list (session_state w))) in *.
    rewrite <- clean_additional_info_spec. apply nothing_filled_false in He.
    rewrite (edit_form_accepted _ _ _ _ _ Hp He Hid). fold lst.
    unfold mbind, Script_bind.
    pose proof (update_document_at i
      (stamped user_id
         (build_profile_data ui (clean_additional_info lst)))
      _ k d Hnd Hk) as Hup.
    erewrite save_profile_update; [|done|exact Hf|exact Hup].
    rewrite reset_edit_run. unfold st_rerun, raise.
    eexists _, _, _, _. split; [reflexivity|].
    split; [by eapply load_profiles_served|]. simpl.
    rewrite list_lookup_fmap, list_lookup_insert_eq
      by (by eapply lookup_lt_Some).
    simpl. split; [reflexivity|]. split.
    + rewrite profile_of_doc_lookup, dict_update_lookup. unfold stamped.
      rewrite lookup_insert_ne by done.
      by rewrite build_profile_data_additional_info.
    + intros j Hj. by rewrite !list_lookup_fmap, list_lookup_insert_ne.
  - intros lst. split; [apply sublist_filter|].
    rewrite <- clean_additional_info_spec.
    apply clean_additional_info_not_blank.
Qed.

Lemma additional_info_round_trip_witness :
  (∃ w' rs w'' rec,
     create_form (Some firestore_client) (certified PublishCV) "admin_456"
       composing_boxes = (Returned (), w')
     ∧ load_profiles (Some firestore_client) w' = (Returned rs, w'')
     ∧ rs ≡ₚ rec :: (profile_of_doc <$> documents (firestore composing_boxes))
     ∧ rec !! "id" = Some (VStr "doc3")
     ∧ rec !! "additional_info" = Some (VList ["Certified X"]))
  ∧ (∃ w' rs w'' rec,
       edit_form (Some firestore_client) (certified UpdateCV) "admin_456"
         three_boxes = (Raised RerunException, w')
       ∧ load_profiles (Some firestore_client) w' = (Returned rs, w'')
       ∧ rs !! 0 = Some rec
       ∧ rec !! "additional_info" = Some (VList ["Certified X"])
       ∧ ∀ j, j ≠ 0 →
           rs !! j
           = (profile_of_doc <$> documents (firestore three_boxes)) !! j).
Proof.
  destruct (additional_info_round_trip firestore_client "admin_456")
    as (Hcreate & Hedit & _).
  split.
  - apply (Hcreate (certified PublishCV) composing_boxes [""; ""; ""]
             [""; "Certified X"; "  "] "doc3" "doc4" []).
    + reflexivity.
    + reflexivity.
    + exact (read_infos_typed (certified PublishCV) [""; ""; ""]).
    + intros (Hname & _). discriminate Hname.
    + reflexivity.
    + refine (bool_decide_unpack _ _). vm_compute. exact I.
  - apply (Hedit (certified UpdateCV) three_boxes [""; "Certified X"; "  "]
             "doc3" "doc4" [] 0 "doc1"
             {["name" := VStr "Ann"; "user_id" := VStr "admin_456"]}).
    + reflexivity.
    + discriminate.
    + reflexivity.
    + exact (read_infos_typed (certified UpdateCV) [""; ""; ""]).
    + intros (Hname & _). discriminate Hname.
    + reflexivity.
    + exact two_profiles_NoDup.
    + reflexivity.
Defined.

(** ** Invariants of a run *)

Section Keeps.
  Context (I : World → Prop) (HI : view_stable I).

Lemma keeps_ret {A} (a : A) : keeps I (mret a).
Proof. by intros w Hw. Qed.

Lemma keeps_raise {A} (e : exn) : keeps I (@raise A e).
Proof. by intros w Hw. Qed.

Lemma keeps_bind {A B} (c : Script A) (k : A → Script B) :
  keeps I c → (∀ a, keeps I (k a)) → keeps I (c ≫= k).
Proof.
  intros Hc Hk w Hw. unfold mbind, Script_bind. specialize (Hc w Hw).
  destruct (c w) as [[a|e] w']; simpl in *; [by apply Hk|done].
Qed.

Lemma keeps_try_except {A} (body : Script A) (handler : exn → Script A) :
  keeps I body → (∀ e, keeps I (handler e)) →
  keeps I (try_except body handler).
Proof.
  intros Hb Hh w Hw. unfold try_except. specialize (Hb w Hw).
  destruct (body w) as [[a|e] w']; simpl in *; [done|].
  destruct (is_Exception e); [by apply Hh|done].
Qed.

Lemma keeps_when (b : bool) (c : Script unit) :
  keeps I c → keeps I (when b c).
Proof. intros Hc. destruct b; [done|apply keeps_ret]. Qed.

Lemma keeps_for_each {A} (xs : list A) (body : A → Script unit) :
  (∀ x, keeps I (body x)) → keeps I (for_each xs body).
Proof.
  intros Hb. induction xs as [|x xs IH]; simpl; [apply keeps_ret|].
  apply keeps_bind; [done|]. by intros _.
Qed.

Lemma keeps_emit (e : Element) : keeps I (emit e).
Proof. intros w Hw. by apply (stable_page I HI). Qed.

Lemma keeps_subscript (d : dict) (k : string) : keeps I (subscript d k).
Proof. unfold subscript. destruct (d !! k); [apply keeps_ret|apply keeps_raise]. Qed.

Lemma keeps_stream : keeps I collection_stream.
Proof.
  intros w Hw. unfold collection_stream, call, serve_stream, next_fate.
  destruct (fates (firestore w)) as [|[a|why] rest]; simpl;
    by apply (stable_read I HI).
Qed.

Lemma keeps_load_profiles (db : option Client) : keeps I (load_profiles db).
Proof.
  unfold load_profiles. destruct db as [c|].
  - apply keeps_try_except.
    + apply keeps_bind; [apply keeps_stream|]. intros docs. apply keeps_ret.
    + intros e. apply keeps_bind; [apply keeps_emit|]. intros _.
      apply keeps_ret.
  - apply keeps_bind; [apply keeps_emit|]. intros _. apply keeps_ret.
Qed.

Lemma keeps_write_joined profile k label :
  keeps I (write_joined profile k label).
Proof.
  apply keeps_when, keeps_bind; [apply keeps_subscript|].
  intros v. apply keeps_emit.
Qed.

Lemma keeps_write_block profile k label :
  keeps I (write_block profile k label).
Proof.
  apply keeps_when, keeps_bind; [apply keeps_emit|]. intros _.
  apply keeps_bind; [apply keeps_subscript|]. intros v. apply keeps_emit.
Qed.

Lemma keeps_display_profile ui profile user_id is_admin key_suffix :
  keeps I (display_profile ui profile user_id is_admin key_suffix).
Proof.
  unfold display_profile.
  repeat (apply keeps_bind;
          [first [ apply keeps_emit | apply keeps_write_joined
                 | apply keeps_write_block | idtac ] | intros _]).
  - apply keeps_when, keeps_bind; [apply keeps_subscript|].
    intros v. apply keeps_emit.
  - apply keeps_when, keeps_bind; [apply keeps_emit|]. intros _.
    apply keeps_bind; [apply keeps_subscript|]. intros [s|l].
    + apply keeps_emit.
    + apply keeps_for_each. intros x. apply keeps_emit.
  - apply keeps_when, keeps_bind; [apply keeps_subscript|]. intros i.
    apply keeps_bind; [apply keeps_emit|]. intros _.
    apply keeps_when, keeps_bind.
    { intros w Hw. by apply (stable_mode I HI). }
    intros _. apply keeps_bind; [|intros _; apply keeps_raise].
    intros w Hw. by apply (stable_profile I HI).
Qed.

Lemma keeps_view_all_profiles db ui user_id is_admin :
  keeps I (view_all_profiles db ui user_id is_admin).
Proof.
  unfold view_all_profiles.
  apply keeps_bind; [apply keeps_emit|]. intros _.
  apply keeps_bind; [apply keeps_emit|]. intros _.
  apply keeps_bind; [apply keeps_load_profiles|]. intros [|p ps].
  - apply keeps_emit.
  - destruct (ui_group_by ui); apply keeps_for_each;
      try (intros x; apply keeps_display_profile);
      intros [group_name profiles_in_group];
      (apply keeps_bind; [apply keeps_emit|]); intros _;
      apply keeps_for_each; intros x; apply keeps_display_profile.
Qed.
End Keeps.

(** The listing never leaves edit mode. *)
Lemma editing_view_stable :
  view_stable (λ w, editing (session_state w) = true).
Proof. split; intros w; intros; by destruct w as [? ? ? [? ? ? ?] ?]. Qed.

(** The listing writes nothing to the store. *)
Lemma store_view_stable (docs : list (string * dict)) (writes : list request) :
  view_stable (λ w, documents (firestore w) = docs
                    ∧ filter (λ r, is_write r = true) (requests (firestore w))
                      = writes).
Proof.
  split; intros w; intros; destruct w as [? ? [? ? ?] ? ?]; simpl in *;
    try done.
  rewrite filter_app, filter_cons_False, filter_nil, app_nil_r
    by (simpl; congruence).
  done.
Qed.

(** ** Runs of [main] *)

(** A connected run that starts in edit mode draws the edit form and
    then the listing. *)
Lemma main_editing ui w :
  connected w = true →
  mode w = Editing →
  main ui w
  = (_ ← edit_form (Some firestore_client) ui "admin_456";
     view_all_profiles (Some firestore_client) ui "admin_456" true)
      (mkWorld (firebaseConfig w) true (firestore w) (session_state w)
         (page w ++ main_prelude w)).
Proof.
  unfold connected, mode, editing, main_prelude.
  destruct w as [cfg apps fs [em pr l cur] pg]. simpl. intros Hc He.
  destruct em as [[|]|]; try done.
  unfold main, initialize_firebase, init_session, st_title, st_markdown,
    st_info, get_session, emit, when, mbind, mret, Script_bind, Script_ret,
    with_page, with_apps. simpl.
  destruct cfg as [[|why]|], apps; try done; simpl;
    by rewrite <- ?app_assoc.
Qed.

Lemma mode_form_world els lst s w :
  mode (form_world els lst s w)
  = if editing s then Editing else Composing.
Proof. by destruct s. Qed.

Lemma editing_form_world els lst s w :
  editing (session_state (form_world els lst s w)) = editing s.
Proof. by destruct s. Qed.

Lemma editing_reload s : editing (reload_additional_info s) = editing s.
Proof.
  unfold editing. by destruct (reload_additional_info_mode s) as [-> _].
Qed.

(** C7: a failed update leaves edit mode all the same.  The session is
    editing Ann's profile, the update is submitted with a name filled
    in, and the service is unreachable: the error is reported, the
    documents are as they were, and the session is back to composing. *)
Lemma failed_update_leaves_editing :
  let w := mkWorld (Some ValidKey) true
             (mkFirestore (documents (firestore two_profiles))
                [Fails "deadline exceeded"] [])
             (session_state editing_world) [] in
  let w' := (main (named_submission UpdateCV) w).2 in
  mode w = Editing
  ∧ ui_pressed (named_submission UpdateCV) ≠ Some CancelEdit
  ∧ documents (firestore w') = documents (firestore w)
  ∧ last (page w')
    = Some (TextExn Error "An error occurred while saving the profile: "
              (ServiceError "deadline exceeded"))
  ∧ mode w' = Composing.
Proof. cbv zeta. split_and!; [reflexivity|discriminate|..]; by vm_compute. Qed.

(** C7, amended: a connected run that starts in edit mode, on a profile
    that carries an "id", ends in compose mode exactly when the user
    cancelled or submitted an update that passed the validation, whether
    the store then accepted the write or not; every other run, a
    rejected update included, ends in edit mode. *)
Theorem main_leaves_editing (ui : Inputs) (w : World) :
  connected w = true →
  mode w = Editing →
  is_Some (profile_to_edit (session_state w) !! "id") →
  mode (main ui w).2 = Composing
  ↔ ui_pressed ui = Some CancelEdit
    ∨ (ui_pressed ui = Some UpdateCV
       ∧ ¬ empty_submission ui
             (read_infos ui (edit_list (session_state w)))).
Proof.
  intros Hc Hm [i Hi]. rewrite (main_editing ui w Hc Hm).
  set (w0 := mkWorld _ _ _ _ _).
  assert (He : editing (session_state w) = true).
  { unfold mode in Hm. by destruct (editing _). }
  assert (Hstay : ∀ w1,
    editing (session_state w1) = true →
    mode (view_all_profiles (Some firestore_client) ui "admin_456" true w1).2
    = Editing).
  { intros w1 Hw1. unfold mode.
    by rewrite (keeps_view_all_profiles _ editing_view_stable). }
  unfold mbind, Script_bind.
  destruct (ui_pressed ui) as [b|] eqn:Hp.
  2:{ rewrite edit_form_idle
      by (unfold edit_idle; rewrite Hp; by split_and!).
      rewrite Hstay by (by rewrite editing_form_world, editing_reload). split; [done|]. by intros [?|[? _]]. }
  destruct b.
  - rewrite (edit_form_add_block _ _ _ _ Hp). simpl.
    rewrite mode_form_world, editing_reload, He.
    split; [done|]. by intros [?|[? _]].
  - rewrite edit_form_idle
      by (unfold edit_idle; rewrite Hp; by split_and!).
    rewrite Hstay by (by rewrite editing_form_world, editing_reload). split; [done|]. by intros [?|[? _]].
  - destruct (nothing_filled ui
      (clean_additional_info (read_infos ui (edit_list (session_state w0)))))
      eqn:Hn.
    + rewrite (edit_form_rejected _ _ _ _ Hp Hn).
      rewrite Hstay by (by rewrite editing_form_world, editing_reload). split; [done|].
      apply nothing_filled_spec in Hn. by intros [?|[_ ?]].
    + rewrite (edit_form_accepted _ _ _ _ i Hp Hn Hi).
      unfold mbind, Script_bind.
      destruct (save_profile_cases (Some firestore_client)
        (build_profile_data ui
           (clean_additional_info
              (read_infos ui (edit_list (session_state w0)))))
        "admin_456" (Some i)
        (form_world edit_prelude
           (read_infos ui (edit_list (session_state w0)))
           (reload_additional_info (session_state w0)) w0))
        as (r & w1 & -> & _).
      rewrite reset_edit_run. simpl. split; [|done]. intros _. right.
      split; [done|]. by apply nothing_filled_false.
  - rewrite (edit_form_cancel _ _ _ _ Hp). unfold mbind, Script_bind.
    rewrite reset_edit_run. simpl. split; [|done]. intros _. by left.
  - rewrite edit_form_idle
      by (unfold edit_idle; rewrite Hp; by split_and!).
    rewrite Hstay by (by rewrite editing_form_world, editing_reload). split; [done|]. by intros [?|[? _]].
Qed.

(** ** The outline of the listing *)

Lemma outlines_ret : outlines (mret ()) [].
Proof.
  exists []. split; [|done]. intros w. destruct w. unfold with_page. simpl.
  by rewrite app_nil_r.
Qed.

Lemma outlines_emit (e : Element) :
  outlines (emit e) (if landmark e then [e] else []).
Proof.
  exists [e]. split; [done|]. rewrite filter_cons, filter_nil.
  destruct (landmark e); by case_decide.
Qed.

Lemma outlines_bind (c1 c2 : Script unit) (o1 o2 : list Element) :
  outlines c1 o1 → outlines c2 o2 → outlines (_ ← c1; c2) (o1 ++ o2).
Proof.
  intros (e1 & H1 & <-) (e2 & H2 & <-). exists (e1 ++ e2).
  split; [|by rewrite filter_app]. intros w.
  unfold mbind, Script_bind. rewrite H1, H2. destruct w. unfold with_page.
  simpl. by rewrite app_assoc.
Qed.

Lemma outlines_when (b : bool) (c : Script unit) (o : list Element) :
  outlines c o → outlines (when b c) (if b then o else []).
Proof. intros Hc. destruct b; [done|apply outlines_ret]. Qed.

Lemma outlines_for_each {A} (xs : list A) (body : A → Script unit)
    (f : A → list Element) :
  (∀ x, x ∈ xs → outlines (body x) (f x)) →
  outlines (for_each xs body) (concat (f <$> xs)).
Proof.
  induction xs as [|x xs IH]; intros Hb; simpl; [apply outlines_ret|].
  apply outlines_bind; [apply Hb; left|]. apply IH.
  intros y Hy. apply Hb. by right.
Qed.

Lemma outlines_quiet_emit k (s : string) :
  k ≠ Subheader → outlines (emit (Text k s)) [].
Proof.
  intros Hk. pose proof (outlines_emit (Text k s)) as H.
  by destruct k.
Qed.

Lemma outlines_write_joined profile k label :
  outlines (write_joined profile k label) [].
Proof.
  unfold write_joined, get_truthy, subscript.
  destruct (profile !! k) as [v|]; [|apply outlines_ret].
  destruct (truthy v); [|apply outlines_ret]. simpl.
  by apply outlines_quiet_emit.
Qed.

Lemma outlines_write_block profile k label :
  outlines (write_block profile k label) [].
Proof.
  unfold write_block, get_truthy, subscript.
  destruct (profile !! k) as [v|]; [|apply outlines_ret].
  destruct (truthy v); [|apply outlines_ret]. simpl.
  apply (outlines_bind _ _ [] []); [by apply outlines_quiet_emit|].
  apply (outlines_emit (TextVal Info "" v "")).
Qed.

(** The card of a profile that has an "id", drawn for the administrator
    in a run in which its button is not clicked: no heading, and the
    edit button of the profile at the end. *)
Lemma outlines_display_profile ui profile user_id key_suffix i :
  profile !! "id" = Some i →
  pressed ui (EditProfile i key_suffix) = false →
  outlines (display_profile ui profile user_id true key_suffix)
    [EditButton i key_suffix].
Proof.
  intros Hi Hp. unfold display_profile.
  apply (outlines_bind _ _ [] [EditButton i key_suffix]);
    [apply (outlines_emit (TextVal Expander _ _ _))|].
  apply (outlines_bind _ _ [] [EditButton i key_suffix]).
  { unfold get_truthy, subscript.
    destruct (profile !! "contact") as [v|]; [|apply outlines_ret].
    destruct (truthy v); [|apply outlines_ret].
    apply (outlines_emit (TextVal Write _ v _)). }
  do 3 (apply (outlines_bind _ _ [] [EditButton i key_suffix]);
        [apply outlines_write_joined|]).
  do 4 (apply (outlines_bind _ _ [] [EditButton i key_suffix]);
        [apply outlines_write_block|]).
  apply (outlines_bind _ _ [] [EditButton i key_suffix]).
  { unfold get_truthy, subscript.
    destruct (profile !! "additional_info") as [v|]; [|apply outlines_ret].
    destruct (truthy v); [|apply outlines_ret]. simpl.
    apply (outlines_bind _ _ [] []); [by apply outlines_quiet_emit|].
    destruct v as [s|l]; [apply (outlines_emit (TextVal Info "" _ ""))|].
    replace (@nil Element) with (concat ((λ _ : string, @nil Element) <$> l))
      by (induction l; [done|by simpl]).
    apply outlines_for_each. intros x _. by apply outlines_quiet_emit. }
  rewrite orb_true_r. unfold when, subscript. rewrite Hi. simpl.
  apply (outlines_bind _ _ [EditButton i key_suffix] []);
    [apply (outlines_emit (EditButton i key_suffix))|].
  rewrite Hp. apply outlines_ret.
Qed.

Lemma holds_pos key keys : 0 < holds key keys ↔ key ∈ keys.
Proof.
  unfold holds. induction keys as [|x keys IH]; simpl.
  - split; [lia|by intros ?%elem_of_nil].
  - rewrite filter_cons, elem_of_cons. case_decide; simpl; [|rewrite IH].
    + split; [by left|lia].
    + split; [by right|]. by intros [?|?].
Qed.

(** Who is in the group of [k]: the listed profiles that hold [k]. *)
Lemma members_group_profiles_elem field k all_profiles p :
  p ∈ members k (group_profiles field all_profiles)
  ↔ p ∈ all_profiles ∧ k ∈ group_key field p.
Proof.
  rewrite members_group_profiles. induction all_profiles as [|q qs IH]; simpl.
  - split; [by intros ?%elem_of_nil|]. by intros [?%elem_of_nil _].
  - rewrite elem_of_app, elem_of_cons, IH, elem_of_replicate, <- holds_pos.
    split.
    + intros [[-> Hh]|[? ?]]; [|by auto]. split; [by left|lia].
    + intros [[->|?] ?]; [left; split; [done|lia]|by right].
Qed.

Lemma group_profiles_members field all_profiles k g p :
  (k, g) ∈ group_profiles field all_profiles → p ∈ g → p ∈ all_profiles.
Proof.
  intros Hg Hp.
  destruct (group_profiles_well field all_profiles) as [Hnd _].
  apply (group_of_elem _ _ _ Hnd) in Hg.
  apply (members_group_profiles_elem field k all_profiles p).
  unfold members. by rewrite Hg.
Qed.

(** The listing of a non-empty collection, in a run without a click. *)
Lemma outlines_listing ui user_id (all_profiles : list dict) :
  ui_pressed ui = None →
  (∀ p, p ∈ all_profiles → is_Some (p !! "id")) →
  outlines
    (match ui_group_by ui with
     | ByNone =>
         for_each all_profiles
           (λ profile,
              display_profile ui profile user_id true "no_grouping")
     | _ =>
         for_each
           (group_profiles (lower (group_label (ui_group_by ui))) all_profiles)
           (λ '(group_name, profiles_in_group),
              _ ← st_subheader (group_heading group_name profiles_in_group);
              for_each profiles_in_group
                (λ profile,
                   display_profile ui profile user_id true group_name))
     end)
    (outline (ui_group_by ui) all_profiles).
Proof.
  intros Hp Hid.
  assert (Hcard : ∀ sfx p, p ∈ all_profiles →
    outlines (display_profile ui p user_id true sfx) (card_button sfx p)).
  { intros sfx p [i Hi]%Hid. unfold card_button. rewrite Hi.
    apply outlines_display_profile; [done|].
    unfold pressed. rewrite Hp. by apply bool_decide_eq_false_2. }
  assert (Hgroups : ∀ field,
    outlines
      (for_each (group_profiles field all_profiles)
         (λ '(group_name, profiles_in_group),
            _ ← st_subheader (group_heading group_name profiles_in_group);
            for_each profiles_in_group
              (λ profile,
                 display_profile ui profile user_id true group_name)))
      (grouped_outline field all_profiles)).
  { intros field. apply outlines_for_each. intros [k g] Hg.
    apply (outlines_bind _ _ [Text Subheader (group_heading k g)]);
      [apply (outlines_emit (Text Subheader _))|].
    apply outlines_for_each. intros p Hin. apply Hcard.
    by eapply group_profiles_members. }
  unfold outline. destruct (ui_group_by ui); [|apply Hgroups..].
  apply outlines_for_each. intros p Hin. by apply Hcard.
Qed.

Lemma profile_of_doc_id doc : is_Some (profile_of_doc doc !! "id").
Proof.
  destruct doc as [i d]. rewrite profile_of_doc_lookup.
  destruct (d !! "id"); [done|]. by rewrite decide_True.
Qed.

(** The page of a served, non-empty listing in a run without a click:
    under the two titles, what [outline] says. *)
Lemma view_all_profiles_outline (c : Client) (ui : Inputs) (user_id : string)
    (w : World) (a : string) (rest : list fate) :
  fates (firestore w) = Serves a :: rest →
  documents (firestore w) ≠ [] →
  ui_pressed ui = None →
  ∃ els w',
    view_all_profiles (Some c) ui user_id true w = (Returned (), w')
    ∧ page w' = page w ++ els
    ∧ filter (λ e, landmark e = true) els
      = outline (ui_group_by ui) (profile_of_doc <$> documents (firestore w)).
Proof.
  intros Hf Hne Hp.
  destruct (outlines_listing ui user_id
              (profile_of_doc <$> documents (firestore w)) Hp)
    as (els & Hem & Hfl).
  { intros p (doc & -> & _)%list_elem_of_fmap. apply profile_of_doc_id. }
  exists ([Text Header "View All Profiles";
           Text Markdown
             "Browse through the professional profiles created by others."]
          ++ els).
  unfold view_all_profiles, st_header, st_markdown, emit.
  unfold mbind at 1 2 3. unfold Script_bind at 1 2 3.
  rewrite (load_profiles_served c _ a rest) by (by destruct w).
  destruct w as [cfg apps [docs fts reqs] ss pg]. simpl in *. subst fts.
  destruct docs as [|d0 docs]; [done|]. rewrite fmap_cons.
  rewrite fmap_cons in Hem. rewrite Hem. unfold with_page. simpl.
  eexists. split; [reflexivity|]. simpl.
  split; [by rewrite <- !app_assoc|].
  rewrite !filter_cons_False by (simpl; congruence). exact Hfl.
Qed.

(** C4: a profile saved with no profession selected holds the empty
    list in that field; grouped by profession, the page shows it under
    no heading at all, while the record that lacks the field is under
    "Not specified". *)
Theorem unselected_field_is_in_no_group :
  documents (firestore listing_world) !! 2
  = Some ("doc3", {["name" := VStr "Cy"; "profession" := VList []]})
  ∧ filter (λ e, landmark e = true)
      (page (main (browse ByProfession) listing_world).2)
    = [Text Subheader "Group: IT (2)";
       EditButton (VStr "doc1") "IT"; EditButton (VStr "doc2") "IT";
       Text Subheader "Group: Finance (1)";
       EditButton (VStr "doc1") "Finance";
       Text Subheader "Group: Not specified (1)";
       EditButton (VStr "doc4") "Not specified"]
  ∧ filter (λ e, landmark e = true)
      (page (main (browse ByNone) listing_world).2)
    = [EditButton (VStr "doc1") "no_grouping";
       EditButton (VStr "doc2") "no_grouping";
       EditButton (VStr "doc3") "no_grouping";
       EditButton (VStr "doc4") "no_grouping"].
Proof. split_and!; by vm_compute. Qed.

(** Profiles that hold the empty list in the grouping field are in no
    group, and those without the field are in "Not specified" only. *)
Lemma group_key_cases field (p : dict) :
  (p !! field = Some (VList []) →
   ∀ k all_profiles, p ∉ members k (group_profiles field all_profiles))
  ∧ (p !! field = None →
     ∀ k all_profiles,
       p ∈ members k (group_profiles field all_profiles)
       ↔ p ∈ all_profiles ∧ k = "Not specified").
Proof.
  split; intros Hf k all_profiles; rewrite members_group_profiles_elem;
    unfold group_key, dict_get; rewrite Hf; simpl.
  - by intros [_ ?%elem_of_nil].
  - by rewrite list_elem_of_singleton.
Qed.

(** What a record saved from a form holds under the three keys of the
    groupings: the selections made in the form. *)
Lemma group_key_saved (ui : Inputs) (cleaned : list string)
    (user_id i : string) :
  let p := profile_of_doc (i, stamped user_id (build_profile_data ui cleaned)) in
  group_key "experience" p = ui_experience ui
  ∧ group_key "profession" p = ui_profession ui
  ∧ group_key "expertise" p = ui_expertise ui.
Proof.
  cbv zeta. unfold group_key, dict_get. rewrite !profile_of_doc_lookup.
  unfold stamped, build_profile_data. split_and!; by simplify_map_eq.
Qed.

Lemma holds_once (key : string) (keys : list string) :
  NoDup keys → key ∈ keys → holds key keys = 1.
Proof.
  induction keys as [|x keys IH]; [by intros _ ?%elem_of_nil|].
  intros [Hx Hnd]%NoDup_cons Hin. unfold holds in *. rewrite filter_cons.
  case_decide as Hk; simpl.
  - subst x. f_equal. pose proof (holds_pos key keys) as Hpos.
    unfold holds in Hpos. destruct (length _); [done|].
    exfalso. apply Hx, Hpos. lia.
  - apply IH; [done|]. apply elem_of_cons in Hin as [->|?]; done.
Qed.



(** The groups of [listing_world] by profession. *)
Example group_profiles_by_profession :
  (λ g : string * list dict,
     (g.1, (λ p : dict, dict_get p "id" (VStr "")) <$> g.2))
  <$> group_profiles "profession"
        (profile_of_doc <$> documents (firestore listing_world))
  = [("IT", [VStr "doc1"; VStr "doc2"]);
     ("Finance", [VStr "doc1"]);
     ("Not specified", [VStr "doc4"])].
Proof. by vm_compute. Qed.

(** The specification's example of cleaning. *)
Example clean_additional_info_example :
  clean_additional_info [""; "Certified X"; ""] = ["Certified X"]
  ∧ clean_additional_info ["Certified X"; "  "; "Award Y"]
    = ["Certified X"; "Award Y"].
Proof. split; by vm_compute. Qed.

(** What the round trip stores for the boxes of [certified]. *)
Example round_trip_example :
  filter (λ item, blank item = false)
    (read_infos (certified PublishCV) [""; ""; ""])
  = ["Certified X"].
Proof. by vm_compute. Qed.

Lemma main_leaves_editing_witness :
  mode (main (named_submission UpdateCV) editing_world).2 = Composing
  ↔ ui_pressed (named_submission UpdateCV) = Some CancelEdit
    ∨ (ui_pressed (named_submission UpdateCV) = Some UpdateCV
       ∧ ¬ empty_submission (named_submission UpdateCV)
             (read_infos (named_submission UpdateCV)
                (edit_list (session_state editing_world)))).
Proof.
  apply (main_leaves_editing (named_submission UpdateCV) editing_world).
  - reflexivity.
  - reflexivity.
  - exists (VStr "doc1"). reflexivity.
Defined.

(** * Further properties of the script *)

(** ** The gateway, whatever the store does *)


(** X2: [load_profiles] always returns a list and never changes a
    document or the session.  Either the service served the listing,
    the list is the records of all documents in stream order and the
    page is as it was (so an empty collection gives the empty list and
    no message), or the list is empty and one error message was added.
    Without a client the store sees no request. *)
Theorem load_profiles_lists_or_reports (db : option Client) (w : World) :
  ∃ (rs : list dict) (w' : World),
    load_profiles db w = (Returned rs, w')
    ∧ session_state w' = session_state w
    ∧ documents (firestore w') = documents (firestore w)
    ∧ (db = None → firestore w' = firestore w)
    ∧ ((∃ a rest, db ≠ None ∧ fates (firestore w) = Serves a :: rest
                  ∧ rs = profile_of_doc <$> documents (firestore w)
                  ∧ page w' = page w
                  ∧ (documents (firestore w) = [] → rs = []))
       ∨ ((db = None ∨ ∀ a, head (fates (firestore w)) ≠ Some (Serves a))
          ∧ rs = []
          ∧ ∃ e, is_error e = true ∧ page w' = page w ++ [e])).
Proof.
  open_world w.
  destruct db as [c|]; [destruct fts as [|[n|why] fts]|]; run_script;
    eexists _, _; (split; [reflexivity|]); simpl;
    (split; [done|]); (split; [done|]); (split; [done|]).
  - right. split; [by right|]. split; [done|]. eexists. split; [|reflexivity]. done.
  - left. exists n, fts. split_and!; try done. by intros ->.
  - right. split; [by right|]. split; [done|]. eexists. split; [|reflexivity]. done.
  - right. split; [by left|]. split; [done|]. eexists. split; [|reflexivity]. done.
Qed.

(** ** Start-up and the empty listing *)

(** X3: [initialize_firebase] always returns, and hands out a client
    exactly when the configuration holds a key that is valid or was
    already used to initialise the application.  It never touches the
    store or the session; after it handed out a client the application
    counts as initialised, and on an initialised application with a
    configuration it changes nothing at all. *)
Theorem initialize_firebase_connects (w : World) :
  ∃ (db : option Client) (w' : World),
    initialize_firebase w = (Returned db, w')
    ∧ (is_Some db ↔ connected w = true)
    ∧ firestore w' = firestore w
    ∧ session_state w' = session_state w
    ∧ firebaseConfig w' = firebaseConfig w
    ∧ (is_Some db → firebase_apps w' = true)
    ∧ (firebase_apps w = true → is_Some (firebaseConfig w) → w' = w)
    ∧ (db = None → ∃ e, is_error e = true ∧ page w' = page w ++ [e]).
Proof.
  destruct w as [[[|why]|] [|] fs ss pg];
    unfold initialize_firebase, connected, st_info, st_error, emit,
      mbind, mret, Script_bind, Script_ret, with_page, with_apps; simpl;
    eexists _, _; (split; [reflexivity|]); simpl; split_and!;
    try done; try (by intros [? ?]); try (by intros _ [? ?]);
    try (split; [by intros [? ?]|done]);
    try (intros _; eexists; split; [|reflexivity]; done).
Qed.

(** X4: when the listing is empty, because there is no client, because
    the collection is empty or because the service did not serve the
    request, the body of the page ends with the invitation to publish
    the first profile, after the error message if there was one; no
    card is drawn, and neither the documents nor the session change. *)
Theorem view_all_profiles_nothing_listed (db : option Client) (ui : Inputs)
    (user_id : string) (is_admin : bool) (w : World) :
  db = None ∨ documents (firestore w) = []
  ∨ (∀ a, head (fates (firestore w)) ≠ Some (Serves a)) →
  ∃ (w' : World) (msgs : list Element),
    view_all_profiles db ui user_id is_admin w = (Returned (), w')
    ∧ page w'
      = page w
        ++ [Text Header "View All Profiles";
            Text Markdown
              "Browse through the professional profiles created by others."]
        ++ msgs
        ++ [Text Info
              "No profiles have been published yet. Be the first to create one!"]
    ∧ Forall (λ e, is_error e = true) msgs
    ∧ length msgs ≤ 1
    ∧ session_state w' = session_state w
    ∧ documents (firestore w') = documents (firestore w).
Proof.
  intros Hnone. open_world w.
  unfold view_all_profiles, st_header, st_markdown, st_info.
  destruct db as [c|]; [destruct fts as [|[n|why] fts]|].
  2:{ destruct docs as [|d0 docs].
      - run_script. eexists _, []. split; [reflexivity|]. simpl.
        rewrite <- !app_assoc. split_and!; try done. lia.
      - destruct Hnone as [?|[?|Hn]]; [done..|]. by destruct (Hn n). }
  all: run_script; eexists _, [_]; (split; [reflexivity|]); simpl;
    rewrite <- !app_assoc; split_and!; try done;
    by repeat constructor.
Qed.

Lemma view_all_profiles_nothing_listed_witness :
  ∃ (w' : World) (msgs : list Element),
    view_all_profiles (Some firestore_client) (browse ByNone) "admin_456" true
      (with_firestore
         (mkFirestore (documents (firestore two_profiles))
            [Fails "deadline exceeded"] []) two_profiles)
    = (Returned (), w')
    ∧ page w'
      = page two_profiles
        ++ [Text Header "View All Profiles";
            Text Markdown
              "Browse through the professional profiles created by others."]
        ++ msgs
        ++ [Text Info
              "No profiles have been published yet. Be the first to create one!"]
    ∧ Forall (λ e, is_error e = true) msgs
    ∧ length msgs ≤ 1
    ∧ session_state w' = session_state two_profiles
    ∧ documents (firestore w') = documents (firestore two_profiles).
Proof.
  apply (view_all_profiles_nothing_listed (Some firestore_client)
           (browse ByNone) "admin_456" true
           (with_firestore
              (mkFirestore (documents (firestore two_profiles))
                 [Fails "deadline exceeded"] []) two_profiles)).
  right; right. intros a. discriminate.
Defined.

(** X5: a run that gets no client ends normally under the notice that
    the application cannot function; the store receives no request,
    and the session is left alone apart from the defaults a first run
    sets. *)
Theorem main_without_connection (ui : Inputs) (w : World) :
  connected w = false →
  ∃ w', main ui w = (Returned (), w')
        ∧ firestore w' = firestore w
        ∧ last (page w')
          = Some (Text Error
                    "The application cannot function without a successful database connection. Please check your configuration.")
        ∧ session_state w'
          = match edit_mode (session_state w) with
            | Some _ => session_state w
            | None =>
                mkSession (Some false) ∅ (Some [""])
                  (current_edit_profile_id (session_state w))
            end.
Proof.
  destruct w as [[[|why]|] [|] fs [[em|] pr l cur] pg];
    unfold connected; simpl; intros Hc; try discriminate;
    unfold main, initialize_firebase, init_session, when, get_session,
      modify_session, st_title, st_markdown, st_info, st_error, emit,
      mbind, mret, Script_bind, Script_ret, with_page, with_apps,
      with_session; simpl;
    eexists; (split; [reflexivity|]); simpl;
    (split; [done|]); (split; [|done]);
    by rewrite last_snoc.
Qed.

Lemma main_without_connection_witness :
  ∃ w', main (named_submission PublishCV)
          (mkWorld None false (firestore two_profiles)
             (mkSession None ∅ None None) []) = (Returned (), w')
        ∧ firestore w' = firestore two_profiles
        ∧ last (page w')
          = Some (Text Error
                    "The application cannot function without a successful database connection. Please check your configuration.")
        ∧ session_state w'
          = mkSession (Some false) ∅ (Some [""]) None.
Proof.
  apply (main_without_connection (named_submission PublishCV)
           (mkWorld None false (firestore two_profiles)
              (mkSession None ∅ None None) [])).
  reflexivity.
Defined.

(** ** Cards and the additional-information block *)

(** X6: for a viewer who is neither the owner of a profile nor the
    administrator, [display_profile] only draws: it returns normally,
    changes nothing but the page, and puts no edit button there,
    whatever click the run reports. *)
Theorem display_profile_hides_edit (ui : Inputs) (profile : dict)
    (user_id key_suffix : string) :
  profile !! "user_id" ≠ Some (VStr user_id) →
  ∃ els,
    (∀ w, display_profile ui profile user_id false key_suffix w
          = (Returned (), with_page (page w ++ els) w))
    ∧ ∀ i sfx, EditButton i sfx ∉ els.
Proof.
  intros Hown.
  assert (Hout :
    outlines (display_profile ui profile user_id false key_suffix) []).
  { unfold display_profile.
    apply (outlines_bind _ _ [] []);
      [apply (outlines_emit (TextVal Expander _ _ _))|].
    apply (outlines_bind _ _ [] []).
    { unfold get_truthy, subscript.
      destruct (profile !! "contact") as [v|]; [|apply outlines_ret].
      destruct (truthy v); [|apply outlines_ret].
      apply (outlines_emit (TextVal Write _ v _)). }
    do 3 (apply (outlines_bind _ _ [] []); [apply outlines_write_joined|]).
    do 4 (apply (outlines_bind _ _ [] []); [apply outlines_write_block|]).
    apply (outlines_bind _ _ [] []).
    { unfold get_truthy, subscript.
      destruct (profile !! "additional_info") as [v|]; [|apply outlines_ret].
      destruct (truthy v); [|apply outlines_ret]. simpl.
      apply (outlines_bind _ _ [] []); [by apply outlines_quiet_emit|].
      destruct v as [s|l]; [apply (outlines_emit (TextVal Info "" _ ""))|].
      replace (@nil Element)
        with (concat ((λ _ : string, @nil Element) <$> l))
        by (induction l; [done|by simpl]).
      apply outlines_for_each. intros x _. by apply outlines_quiet_emit. }
    rewrite bool_decide_eq_false_2 by done. apply outlines_ret. }
  destruct Hout as (els & Hem & Hfl). exists els. split; [exact Hem|].
  intros i sfx Hin.
  assert (Hf : EditButton i sfx ∈ filter (λ e, landmark e = true) els).
  { by apply list_elem_of_filter. }
  rewrite Hfl in Hf. by apply elem_of_nil in Hf.
Qed.

Lemma display_profile_hides_edit_witness :
  ∃ els,
    (∀ w, display_profile
            (mkInputs "" "" [] [] [] "" "" "" "" []
               (Some (EditProfile (VStr "doc2") "no_grouping")) ByNone)
            {["id" := VStr "doc2"; "name" := VStr "Bob";
              "user_id" := VStr "bob_123"]}
            "carol_789" false "no_grouping" w
          = (Returned (), with_page (page w ++ els) w))
    ∧ ∀ i sfx, EditButton i sfx ∉ els.
Proof.
  apply (display_profile_hides_edit
           (mkInputs "" "" [] [] [] "" "" "" "" []
              (Some (EditProfile (VStr "doc2") "no_grouping")) ByNone)
           {["id" := VStr "doc2"; "name" := VStr "Bob";
             "user_id" := VStr "bob_123"]}
           "carol_789" "no_grouping").
  discriminate.
Defined.

Lemma create_form_add_block db ui user_id w l0 :
  additional_info_list (session_state w) = Some l0 →
  ui_pressed ui = Some AddBlock →
  create_form db ui user_id w
  = (Raised RerunException,
     form_world create_prelude (read_infos ui l0 ++ [""]) (session_state w) w).
Proof.
  intros Hl Hp. destruct w as [cfg apps fs ss pg]. simpl in *.
  run_form. rewrite Hl. simpl. decide_pressed Hp.
  unfold form_world. simpl. by rewrite <- !app_assoc.
Qed.

(** X7: "Add another information block", in either form, submits
    nothing: the run is restarted, the store sees no request, the mode
    stays, and the session list is what the boxes hold (one text per
    slot, the typed text or else the slot's own) followed by one new
    empty slot.  The create form leaves the profile kept for editing as
    it is; in the edit form, whose list can be the profile's own, every
    other entry of that profile stays. *)
Theorem add_block_appends_one_slot (db : option Client) (ui : Inputs)
    (user_id : string) (w : World) :
  ui_pressed ui = Some AddBlock →
  (∀ l0 lst,
     additional_info_list (session_state w) = Some l0 →
     typed_into ui l0 lst →
     ∃ w', create_form db ui user_id w = (Raised RerunException, w')
           ∧ firestore w' = firestore w
           ∧ additional_info_list (session_state w') = Some (lst ++ [""])
           ∧ edit_mode (session_state w') = edit_mode (session_state w)
           ∧ profile_to_edit (session_state w')
             = profile_to_edit (session_state w))
  ∧ (∀ lst,
       typed_into ui (edit_list (session_state w)) lst →
       ∃ w', edit_form db ui user_id w = (Raised RerunException, w')
             ∧ firestore w' = firestore w
             ∧ additional_info_list (session_state w') = Some (lst ++ [""])
             ∧ edit_mode (session_state w') = edit_mode (session_state w)
             ∧ ∀ key, key ≠ "additional_info" →
                 profile_to_edit (session_state w') !! key
                 = profile_to_edit (session_state w) !! key).
Proof.
  intros Hp. split.
  - intros l0 lst Hl ->%typed_into_read_infos.
    rewrite (create_form_add_block _ _ _ _ _ Hl Hp).
    eexists. split; [reflexivity|]. by destruct w as [? ? ? [? ? ? ?] ?].
  - intros lst ->%typed_into_read_infos.
    rewrite (edit_form_add_block _ _ _ _ Hp).
    eexists. split; [reflexivity|].
    destruct (reload_additional_info_mode (session_state w)) as [Hm Hpr].
    unfold form_world. simpl. by rewrite Hm, Hpr.
Qed.

Lemma add_block_appends_one_slot_witness :
  (∃ w', create_form (Some firestore_client) (certified AddBlock)
           "admin_456" composing_boxes = (Raised RerunException, w')
         ∧ firestore w' = firestore composing_boxes
         ∧ additional_info_list (session_state w')
           = Some ([""; "Certified X"; "  "] ++ [""])
         ∧ edit_mode (session_state w')
           = edit_mode (session_state composing_boxes)
         ∧ profile_to_edit (session_state w')
           = profile_to_edit (session_state composing_boxes))
  ∧ (∃ w', edit_form (Some firestore_client) (certified AddBlock)
             "admin_456" three_boxes = (Raised RerunException, w')
           ∧ firestore w' = firestore three_boxes
           ∧ additional_info_list (session_state w')
             = Some ([""; "Certified X"; "  "] ++ [""])
           ∧ edit_mode (session_state w')
             = edit_mode (session_state three_boxes)
           ∧ ∀ key, key ≠ "additional_info" →
               profile_to_edit (session_state w') !! key
               = profile_to_edit (session_state three_boxes) !! key).
Proof.
  split.
  - destruct (add_block_appends_one_slot (Some firestore_client)
                (certified AddBlock) "admin_456" composing_boxes eq_refl)
      as [Hcreate _].
    apply (Hcreate [""; ""; ""]).
    + reflexivity.
    + exact (read_infos_typed (certified AddBlock) [""; ""; ""]).
  - destruct (add_block_appends_one_slot (Some firestore_client)
                (certified AddBlock) "admin_456" three_boxes eq_refl)
      as [_ Hedit].
    apply Hedit.
    exact (read_infos_typed (certified AddBlock) [""; ""; ""]).
Defined.

(** ** Edges of grouping and of the update path *)

(** X8: grouped by a field, a record that lacks the field is a member
    of the group "Not specified" and of no other group. *)
Theorem missing_field_is_not_specified (field : string) (p : dict)
    (all_profiles : list dict) :
  p !! field = None →
  p ∈ all_profiles →
  p ∈ members "Not specified" (group_profiles field all_profiles)
  ∧ ∀ k, p ∈ members k (group_profiles field all_profiles) →
         k = "Not specified".
Proof.
  intros Hf Hin.
  destruct (group_key_cases field p) as [_ Hcases].
  split.
  - by apply (Hcases Hf).
  - intros k Hk. by apply (Hcases Hf) in Hk as [_ ?].
Qed.

Lemma missing_field_is_not_specified_witness :
  profile_of_doc ("doc4", {["name" := VStr "Di"]})
  ∈ members "Not specified"
      (group_profiles "profession"
         (profile_of_doc <$> documents (firestore listing_world)))
  ∧ ∀ k, profile_of_doc ("doc4", {["name" := VStr "Di"]})
         ∈ members k
             (group_profiles "profession"
                (profile_of_doc <$> documents (firestore listing_world))) →
         k = "Not specified".
Proof.
  apply (missing_field_is_not_specified "profession"
           (profile_of_doc ("doc4", {["name" := VStr "Di"]}))
           (profile_of_doc <$> documents (firestore listing_world))).
  - reflexivity.
  - refine (bool_decide_unpack _ _). vm_compute. exact I.
Defined.

Lemma add_to_group_cards key p grouped :
  sum_list (length <$> (add_to_group key p grouped).*2)
  = S (sum_list (length <$> grouped.*2)).
Proof.
  induction grouped as [|[k g] rest IH]; [done|].
  cbn [add_to_group]. case_decide; rewrite !fmap_cons; cbn [snd sum_list].
  - rewrite length_app. simpl. lia.
  - rewrite IH. lia.
Qed.

Lemma group_into_cards field all_profiles grouped :
  sum_list (length <$> (group_into field grouped all_profiles).*2)
  = sum_list (length <$> grouped.*2)
    + sum_list ((λ p, length (group_key field p)) <$> all_profiles).
Proof.
  revert grouped. induction all_profiles as [|p ps IH]; intros grouped.
  - simpl. lia.
  - unfold group_into in *. cbn [foldl]. rewrite IH. rewrite fmap_cons.
    cbn [sum_list].
    assert (Hkeys : ∀ keys g,
      sum_list (length <$>
        (foldl (λ grouped key, add_to_group key p grouped) g keys).*2)
      = sum_list (length <$> g.*2) + length keys).
    { induction keys as [|key keys IHk]; intros g; simpl; [lia|].
      rewrite IHk, add_to_group_cards. lia. }
    rewrite Hkeys. unfold id. lia.
Qed.

(** X9: grouping loses and invents nothing.  The groups together hold
    as many cards as the listed profiles hold values in the field (the
    one stand-in value of a record without the field included), and a
    key has a group exactly when a listed profile holds it. *)
Theorem group_profiles_covers_every_value (field : string)
    (all_profiles : list dict) :
  sum_list (length <$> (group_profiles field all_profiles).*2)
  = sum_list ((λ p, length (group_key field p)) <$> all_profiles)
  ∧ ∀ k, k ∈ (group_profiles field all_profiles).*1
         ↔ ∃ p, p ∈ all_profiles ∧ k ∈ group_key field p.
Proof.
  split.
  - apply (group_into_cards field all_profiles []).
  - intros k. split.
    + intros ([k' g] & -> & Hg)%list_elem_of_fmap. simpl.
      pose proof Hg as [Hne Heq]%group_profiles_elem.
      destruct g as [|p g]; [done|]. exists p.
      apply (members_group_profiles_elem field k' all_profiles p).
      rewrite members_group_profiles, <- Heq. left.
    + intros (p & Hp & Hk).
      assert (Hm : p ∈ members k (group_profiles field all_profiles))
        by by apply members_group_profiles_elem.
      unfold members in Hm.
      destruct (group_of k (group_profiles field all_profiles)) as [g|] eqn:Hg;
        [|by apply elem_of_nil in Hm].
      apply list_elem_of_fmap. exists (k, g). split; [done|].
      apply group_of_elem; [|done]. apply group_profiles_well.
Qed.



(** ** Publishing *)

Lemma build_profile_data_no_id ui cleaned :
  build_profile_data ui cleaned !! "id" = None
  ∧ build_profile_data ui cleaned !! "user_id" = None.
Proof. unfold build_profile_data. split; by simplify_map_eq. Qed.

(** X11: an accepted and served publish is listed back whole: the
    listing that follows returns, with the records listed before, the
    record of the new document, which is the dict built from the form
    (every text as typed, the three selections, the entries of the boxes
    that are not blank) with the acting user as owner and the
    store-assigned identifier as "id". *)
Theorem publish_round_trip (c : Client) (ui : Inputs) (user_id : string)
    (w : World) (l0 lst : list string) (a b : string) (rest : list fate) :
  additional_info_list (session_state w) = Some l0 →
  ui_pressed ui = Some PublishCV →
  typed_into ui l0 lst →
  ¬ empty_submission ui lst →
  fates (firestore w) = Serves a :: Serves b :: rest →
  a ∉ doc_ids (documents (firestore w)) →
  ∃ w' rs w'' rec,
    create_form (Some c) ui user_id w = (Returned (), w')
    ∧ load_profiles (Some c) w' = (Returned rs, w'')
    ∧ rs ≡ₚ rec :: (profile_of_doc <$> documents (firestore w))
    ∧ rec = <["id" := VStr a]>
              (<["user_id" := VStr user_id]>
                 (build_profile_data ui
                    (filter (λ item, blank item = false) lst)))
    ∧ carries ui lst user_id rec
    ∧ rec !! "id" = Some (VStr a).
Proof.
  intros Hl Hp ->%typed_into_read_infos He Hf Hnew.
  set (lst := read_infos ui l0) in *. apply nothing_filled_false in He.
  rewrite (create_form_accepted _ _ _ _ _ Hl Hp He). fold lst.
  unfold mbind, Script_bind.
  erewrite save_profile_create; [|done|exact Hf|exact Hnew].
  set (cleaned := clean_additional_info lst).
  assert (Hrec : profile_of_doc (a, stamped user_id (build_profile_data ui cleaned))
                 = <["id" := VStr a]>
                     (<["user_id" := VStr user_id]>
                        (build_profile_data ui
                           (filter (λ item, blank item = false) lst)))).
  { rewrite <- clean_additional_info_spec. fold cleaned.
    apply map_eq. intros key. rewrite profile_of_doc_lookup. unfold stamped.
    destruct (build_profile_data_no_id ui cleaned) as [Hid _].
    destruct (decide (key = "id")) as [->|Hne].
    - by rewrite lookup_insert_eq, lookup_insert_ne, Hid.
    - rewrite (lookup_insert_ne _ "id") by done.
      by destruct (_ !! key). }
  eexists _, _, _, _. split; [reflexivity|].
  split; [by eapply load_profiles_served|]. simpl.
  split; [rewrite fmap_app; symmetry; apply Permutation_cons_append|].
  split; [exact Hrec|]. simpl. split.
  - pose proof (stamped_build_carries ui lst user_id) as Hc.
    fold cleaned in Hc. unfold carries in *.
    rewrite !profile_of_doc_lookup.
    destruct Hc as (-> & -> & -> & -> & -> & -> & -> & -> & -> & -> & ->).
    done.
  - rewrite Hrec. apply lookup_insert_eq.
Qed.

Lemma publish_round_trip_witness :
  ∃ w' rs w'' rec,
    create_form (Some firestore_client) (certified PublishCV) "admin_456"
      composing_boxes = (Returned (), w')
    ∧ load_profiles (Some firestore_client) w' = (Returned rs, w'')
    ∧ rs ≡ₚ rec :: (profile_of_doc <$> documents (firestore composing_boxes))
    ∧ rec = <["id" := VStr "doc3"]>
              (<["user_id" := VStr "admin_456"]>
                 (build_profile_data (certified PublishCV)
                    (filter (λ item, blank item = false)
                       [""; "Certified X"; "  "])))
    ∧ carries (certified PublishCV) [""; "Certified X"; "  "] "admin_456" rec
    ∧ rec !! "id" = Some (VStr "doc3").
Proof.
  apply (publish_round_trip firestore_client (certified PublishCV)
           "admin_456" composing_boxes [""; ""; ""]
           [""; "Certified X"; "  "] "doc3" "doc4" []).
  - reflexivity.
  - reflexivity.
  - exact (read_infos_typed (certified PublishCV) [""; ""; ""]).
  - intros (Hname & _). discriminate Hname.
  - reflexivity.
  - refine (bool_decide_unpack _ _). vm_compute. exact I.
Defined.

(** X12: what a publish does to the form.  A rejected submission keeps
    the entries as typed in the session list.  An accepted one resets
    the list to a single empty slot after the one message of the save,
    whether that message is the success or an error that left every
    document as it was; and neither touches the mode. *)
Theorem publish_resets_the_form (c : Client) (ui : Inputs)
    (user_id : string) (w : World) (l0 : list string) :
  additional_info_list (session_state w) = Some l0 →
  ui_pressed ui = Some PublishCV →
  ∃ w' e,
    create_form (Some c) ui user_id w = (Returned (), w')
    ∧ page w' = page w ++ create_prelude ++ [e]
    ∧ edit_mode (session_state w') = edit_mode (session_state w)
    ∧ profile_to_edit (session_state w') = profile_to_edit (session_state w)
    ∧ if decide (empty_submission ui (read_infos ui l0)) then
        additional_info_list (session_state w') = Some (read_infos ui l0)
        ∧ firestore w' = firestore w
      else
        additional_info_list (session_state w') = Some [""]
        ∧ (is_error e = true →
           documents (firestore w') = documents (firestore w)).
Proof.
  intros Hl Hp. case_decide as He.
  - apply nothing_filled_spec in He.
    rewrite (create_form_rejected _ _ _ _ _ Hl Hp He).
    eexists _, _. split; [reflexivity|]. unfold form_world. simpl.
    split; [reflexivity|]. done.
  - apply nothing_filled_false in He.
    rewrite (create_form_accepted _ _ _ _ _ Hl Hp He).
    unfold mbind, Script_bind.
    destruct (save_profile_cases (Some c)
      (build_profile_data ui (clean_additional_info (read_infos ui l0)))
      user_id None
      (form_world create_prelude (read_infos ui l0) (session_state w) w))
      as (r & w1 & -> & Hs & _ & _ & Hcases).
    destruct w1 as [cfg1 apps1 fs1 ss1 pg1]. simpl in *. subst ss1.
    unfold modify_session, with_session. simpl.
    assert (Hsess : ∀ e,
      pg1 = (page w ++ create_prelude) ++ [e] →
      (is_error e = true → documents fs1 = documents (firestore w)) →
      ∃ w' e',
        (Returned (),
         mkWorld cfg1 apps1 fs1
           (set_additional_info_list [""]
              (set_additional_info_list (read_infos ui l0) (session_state w)))
           pg1) = (Returned (), w')
        ∧ page w' = page w ++ create_prelude ++ [e']
        ∧ edit_mode (session_state w') = edit_mode (session_state w)
        ∧ profile_to_edit (session_state w')
          = profile_to_edit (session_state w)
        ∧ additional_info_list (session_state w') = Some [""]
        ∧ (is_error e' = true →
           documents (firestore w') = documents (firestore w))).
    { intros e -> Hdocs. eexists _, e. split; [reflexivity|]. simpl.
      rewrite <- app_assoc. by destruct (session_state w). }
    destruct Hcases as [(e & He1 & -> & Hd)|[(n & _ & _ & Hd & ->)|(i & [=] & _)]].
    + by apply (Hsess e).
    + by apply (Hsess (Text Success "CV published successfully!")).
Qed.

Lemma publish_resets_the_form_witness :
  ∃ w' e,
    create_form (Some firestore_client) (certified PublishCV) "admin_456"
      (with_firestore
         (mkFirestore (documents (firestore two_profiles))
            [Fails "deadline exceeded"] []) composing_boxes)
    = (Returned (), w')
    ∧ page w' = page composing_boxes ++ create_prelude ++ [e]
    ∧ edit_mode (session_state w') = edit_mode (session_state composing_boxes)
    ∧ profile_to_edit (session_state w')
      = profile_to_edit (session_state composing_boxes)
    ∧ if decide (empty_submission (certified PublishCV)
                   (read_infos (certified PublishCV) [""; ""; ""])) then
        additional_info_list (session_state w')
        = Some (read_infos (certified PublishCV) [""; ""; ""])
        ∧ firestore w'
          = mkFirestore (documents (firestore two_profiles))
              [Fails "deadline exceeded"] []
      else
        additional_info_list (session_state w') = Some [""]
        ∧ (is_error e = true →
           documents (firestore w') = documents (firestore two_profiles)).
Proof.
  apply (publish_resets_the_form firestore_client (certified PublishCV)
           "admin_456"
           (with_firestore
              (mkFirestore (documents (firestore two_profiles))
                 [Fails "deadline exceeded"] []) composing_boxes)
           [""; ""; ""]).
  - reflexivity.
  - reflexivity.
Defined.

(** ** What a run does to the store *)

Lemma run_stable_view (I : World → Prop) : run_stable I → view_stable I.
Proof.
  intros HI. split.
  - apply (run_page I HI).
  - apply (run_read I HI).
  - intros w Hw. by apply (run_session I HI).
  - intros w p Hw. by apply (run_session I HI).
Qed.

Section KeepsRun.
Context (I : World → Prop) (HI : run_stable I).

Lemma keeps_modify_session (f : SessionState → SessionState) :
  keeps I (modify_session f).
Proof. intros w Hw. by apply (run_session I HI). Qed.

Lemma keeps_get_session : keeps I get_session.
Proof. by intros w Hw. Qed.

Lemma keeps_emit_run (e : Element) : keeps I (emit e).
Proof. apply keeps_emit. by apply run_stable_view. Qed.

Lemma keeps_initialize_firebase : keeps I initialize_firebase.
Proof.
  intros w Hw. unfold initialize_firebase.
  destruct (firebase_apps w), (firebaseConfig w) as [[|why]|]; simpl;
    try done; try (by apply (run_page I HI)).
  apply (run_page I HI (with_apps true w)). by apply (run_apps I HI).
Qed.

Lemma keeps_init_session : keeps I init_session.
Proof.
  unfold init_session. apply keeps_bind; [apply keeps_get_session|].
  intros s. apply keeps_when.
  repeat (apply keeps_bind; [apply keeps_modify_session|intros _]).
  apply keeps_modify_session.
Qed.

Lemma keeps_reset_edit : keeps I reset_edit.
Proof.
  unfold reset_edit.
  repeat (apply keeps_bind; [apply keeps_modify_session|intros _]).
  apply keeps_modify_session.
Qed.

Lemma keeps_additional_info_block ui : keeps I (additional_info_block ui).
Proof.
  unfold additional_info_block, get_additional_info_list.
  apply keeps_bind; [apply keeps_emit_run|]. intros _.
  apply keeps_bind.
  { apply keeps_bind; [apply keeps_get_session|]. intros s.
    destruct (additional_info_list s); [apply keeps_ret|apply keeps_raise]. }
  intros lst. apply keeps_bind; [apply keeps_modify_session|]. intros _.
  apply keeps_bind; [|intros _; apply keeps_ret].
  apply keeps_when, keeps_bind; [apply keeps_modify_session|].
  intros _. apply keeps_raise.
Qed.

Lemma keeps_save_profile ui lst doc_id :
  keeps I (save_profile (Some firestore_client)
             (build_profile_data ui (clean_additional_info lst))
             "admin_456" doc_id).
Proof. intros w Hw. by apply (run_save I HI). Qed.

Lemma keeps_create_form ui :
  keeps I (create_form (Some firestore_client) ui "admin_456").
Proof.
  unfold create_form.
  apply keeps_bind; [apply keeps_emit_run|]. intros _.
  apply keeps_bind; [apply keeps_emit_run|]. intros _.
  apply keeps_bind; [apply keeps_additional_info_block|]. intros lst.
  apply keeps_when. destruct (nothing_filled _ _); [apply keeps_emit_run|].
  apply keeps_bind; [apply keeps_save_profile|]. intros _.
  apply keeps_modify_session.
Qed.

Lemma keeps_edit_form ui :
  keeps I (edit_form (Some firestore_client) ui "admin_456").
Proof.
  unfold edit_form.
  apply keeps_bind; [apply keeps_emit_run|]. intros _.
  apply keeps_bind; [apply keeps_emit_run|]. intros _.
  apply keeps_bind; [apply keeps_get_session|]. intros s.
  apply keeps_bind; [apply keeps_modify_session|]. intros _.
  apply keeps_bind; [apply keeps_additional_info_block|]. intros lst.
  apply keeps_bind.
  - apply keeps_when. destruct (nothing_filled _ _); [apply keeps_emit_run|].
    apply keeps_bind.
    { apply keeps_subscript. }
    intros i. apply keeps_bind; [apply keeps_save_profile|]. intros _.
    apply keeps_bind; [apply keeps_reset_edit|]. intros _. apply keeps_raise.
  - intros _. apply keeps_when, keeps_bind; [apply keeps_reset_edit|].
    intros _. apply keeps_raise.
Qed.

Lemma keeps_main ui : keeps I (main ui).
Proof.
  unfold main.
  apply keeps_bind; [apply keeps_emit_run|]. intros _.
  apply keeps_bind; [apply keeps_emit_run|]. intros _.
  apply keeps_bind; [apply keeps_initialize_firebase|]. intros [[]|].
  - apply keeps_bind; [apply keeps_init_session|]. intros _.
    apply keeps_bind; [apply keeps_get_session|]. intros s.
    apply keeps_bind.
    + destruct (negb (editing s));
        [apply keeps_create_form|apply keeps_edit_form].
    + intros _. apply keeps_view_all_profiles. by apply run_stable_view.
  - apply keeps_bind; [apply keeps_init_session|]. intros _.
    apply keeps_emit_run.
Qed.
End KeepsRun.

Lemma stamped_build_well_written ui lst :
  well_written
    (stamped "admin_456" (build_profile_data ui (clean_additional_info lst))).
Proof.
  split; [apply stamped_owner|]. exists (clean_additional_info lst).
  split; [|apply clean_additional_info_not_blank]. unfold stamped.
  by rewrite lookup_insert_ne, build_profile_data_additional_info.
Qed.

Lemma dict_update_well_written (d data : dict) :
  well_written data → well_written (dict_update d data).
Proof.
  intros [Ho (l & Hl & Hb)]. split.
  - by rewrite dict_update_lookup, Ho.
  - exists l. by rewrite dict_update_lookup, Hl.
Qed.

(** The three invariants of the store a run keeps. *)
Lemma store_run_stable (docs0 : list (string * dict)) :
  run_stable (λ w,
    doc_ids docs0 `prefix_of` doc_ids (documents (firestore w))
    ∧ (NoDup (doc_ids docs0) → NoDup (doc_ids (documents (firestore w))))
    ∧ ∀ doc, doc ∈ documents (firestore w) →
             doc ∈ docs0 ∨ well_written doc.2).
Proof.
  split; try (intros w; intros; by destruct w as [? ? [? ? ?] ? ?]).
  intros w ui lst doc_id (Hpre & Hnd & Hdocs).
  destruct (save_profile_cases (Some firestore_client)
    (build_profile_data ui (clean_additional_info lst)) "admin_456" doc_id w)
    as (r & w' & -> & _ & _ & _ & Hcases). simpl.
  destruct Hcases as [(e & _ & _ & ->)|[(n & _ & Hn & -> & _)|(i & _ & _ & Hup & _)]].
  - done.
  - split_and!.
    + unfold doc_ids in *. rewrite fmap_app. by apply prefix_app_r.
    + intros H0. unfold doc_ids in *. rewrite fmap_app. apply NoDup_app.
      split; [by apply Hnd|]. split; [|apply NoDup_singleton].
      intros x Hx ->%list_elem_of_singleton. done.
    + intros doc [?|Hd]%elem_of_app; [by apply Hdocs|].
      apply list_elem_of_singleton in Hd as ->.
      right. apply stamped_build_well_written.
  - pose proof (update_document_ids _ _ _ _ Hup) as Hids. split_and!.
    + by rewrite Hids.
    + rewrite Hids. exact Hnd.
    + intros doc Hin.
      destruct (update_document_elem _ _ _ _ _ Hup Hin) as [?|(d & _ & ->)];
        [by apply Hdocs|].
      right. apply dict_update_well_written, stamped_build_well_written.
Qed.


(** ** Entering edit mode *)

Lemma clicks_after (c1 c2 : Script unit) (o : list Element) f :
  outlines c1 o → clicks c2 f → clicks (_ ← c1; c2) f.
Proof.
  intros (e1 & H1 & _) (e2 & H2). exists (e1 ++ e2). intros w.
  unfold mbind, Script_bind. rewrite H1, H2. destruct w.
  unfold with_page, with_session. simpl. by rewrite app_assoc.
Qed.

Lemma clicks_bind (c : Script unit) (k : unit → Script unit) f :
  clicks c f → clicks (c ≫= k) f.
Proof.
  intros (els & H). exists els. intros w.
  unfold mbind, Script_bind. by rewrite H.
Qed.

Lemma clicks_for_each {A} (l1 l2 : list A) (x : A) (body : A → Script unit) f :
  (∀ y, y ∈ l1 → ∃ o, outlines (body y) o) →
  clicks (body x) f →
  clicks (for_each (l1 ++ x :: l2) body) f.
Proof.
  intros Hl1 Hx. induction l1 as [|y l1 IH]; simpl.
  - by apply clicks_bind.
  - destruct (Hl1 y) as [o Ho]; [left|].
    apply (clicks_after _ _ o); [done|]. apply IH.
    intros z Hz. apply Hl1. by right.
Qed.

(** The card of a profile whose button is the one clicked. *)
Lemma clicks_display_profile ui profile user_id key_suffix i :
  profile !! "id" = Some i →
  pressed ui (EditProfile i key_suffix) = true →
  clicks (display_profile ui profile user_id true key_suffix)
    (start_edit profile).
Proof.
  intros Hi Hp. unfold display_profile.
  apply (clicks_after _ _ []);
    [apply (outlines_emit (TextVal Expander _ _ _))|].
  apply (clicks_after _ _ []).
  { unfold get_truthy, subscript.
    destruct (profile !! "contact") as [v|]; [|apply outlines_ret].
    destruct (truthy v); [|apply outlines_ret].
    apply (outlines_emit (TextVal Write _ v _)). }
  do 3 (apply (clicks_after _ _ []); [apply outlines_write_joined|]).
  do 4 (apply (clicks_after _ _ []); [apply outlines_write_block|]).
  apply (clicks_after _ _ []).
  { unfold get_truthy, subscript.
    destruct (profile !! "additional_info") as [v|]; [|apply outlines_ret].
    destruct (truthy v); [|apply outlines_ret]. simpl.
    apply (outlines_bind _ _ [] []); [by apply outlines_quiet_emit|].
    destruct v as [s|l]; [apply (outlines_emit (TextVal Info "" _ ""))|].
    replace (@nil Element)
      with (concat ((λ _ : string, @nil Element) <$> l))
      by (induction l; [done|by simpl]).
    apply outlines_for_each. intros x _. by apply outlines_quiet_emit. }
  rewrite orb_true_r. unfold when, subscript. rewrite Hi. simpl.
  apply (clicks_after _ _ [EditButton i key_suffix]);
    [apply (outlines_emit (EditButton i key_suffix))|].
  rewrite Hp. exists []. intros w.
  destruct w as [? ? ? [? ? ? ?] ?]. unfold start_edit.
  unfold modify_session, st_rerun, raise, mbind, Script_bind,
    with_session, with_page. simpl. by rewrite app_nil_r.
Qed.

Lemma initialised_run w :
  init_session w = (Returned (), with_session (initialised (session_state w)) w).
Proof.
  destruct w as [cfg apps fs [[b|] pr l cur] pg]; by compute.
Qed.

(** A connected run that is not in edit mode draws the create form and
    then the listing. *)
Lemma main_composing ui w :
  connected w = true →
  editing (initialised (session_state w)) = false →
  main ui w
  = (_ ← create_form (Some firestore_client) ui "admin_456";
     view_all_profiles (Some firestore_client) ui "admin_456" true)
      (mkWorld (firebaseConfig w) true (firestore w)
         (initialised (session_state w)) (page w ++ main_prelude w)).
Proof.
  intros Hc He. unfold main, st_title, st_markdown.
  unfold mbind at 1 2 3 4. unfold Script_bind at 1 2 3 4.
  unfold connected, main_prelude in *.
  destruct w as [cfg apps fs ss pg]. simpl in *.
  unfold emit, initialize_firebase, st_info, emit, mbind, mret, Script_bind,
    Script_ret, with_page, with_apps. simpl.
  destruct cfg as [[|why]|], apps; try done; simpl;
    rewrite initialised_run; unfold with_session; simpl;
    unfold get_session; simpl; rewrite He; simpl;
    by rewrite <- ?app_assoc.
Qed.

Lemma create_form_idle db ui user_id w l0 :
  additional_info_list (session_state w) = Some l0 →
  ui_pressed ui ≠ Some AddBlock →
  ui_pressed ui ≠ Some PublishCV →
  create_form db ui user_id w
  = (Returned (),
     form_world create_prelude (read_infos ui l0) (session_state w) w).
Proof.
  intros Hl Ha Hp. destruct w as [cfg apps fs ss pg]. simpl in *.
  run_form. rewrite Hl. simpl.
  unfold pressed. rewrite !bool_decide_eq_false_2 by done.
  unfold form_world. simpl. by rewrite <- !app_assoc.
Qed.

(** The flat listing in a run that reports a click on the button of
    [p], the first listed record with the clicked identifier. *)
Lemma view_all_profiles_click (c : Client) ui user_id w a rest i
    (l1 l2 : list dict) (p : dict) :
  fates (firestore w) = Serves a :: rest →
  ui_group_by ui = ByNone →
  ui_pressed ui = Some (EditProfile i "no_grouping") →
  profile_of_doc <$> documents (firestore w) = l1 ++ p :: l2 →
  p !! "id" = Some i →
  (∀ q, q ∈ l1 → q !! "id" ≠ Some i) →
  ∃ els,
    view_all_profiles (Some c) ui user_id true w
    = (Raised RerunException,
       mkWorld (firebaseConfig w) (firebase_apps w)
         (mkFirestore (documents (firestore w)) rest
            (requests (firestore w) ++ [ReqStream]))
         (start_edit p (session_state w)) (page w ++ els)).
Proof.
  intros Hf Hg Hp Hrs Hi Hl1.
  assert (Hclick : clicks
    (for_each (l1 ++ p :: l2)
       (λ profile, display_profile ui profile user_id true "no_grouping"))
    (start_edit p)).
  { apply clicks_for_each.
    - intros q Hq.
      assert (Hqid : is_Some (q !! "id")).
      { assert (Hin : q ∈ profile_of_doc <$> documents (firestore w)).
        { rewrite Hrs. apply elem_of_app. by left. }
        apply list_elem_of_fmap in Hin as (doc & -> & _).
        apply profile_of_doc_id. }
      destruct Hqid as [j Hj]. eexists.
      apply (outlines_display_profile ui q user_id "no_grouping" j Hj).
      unfold pressed. rewrite Hp. apply bool_decide_eq_false_2.
      intros [= ->]. by apply (Hl1 q Hq).
    - apply (clicks_display_profile ui p user_id "no_grouping" i Hi).
      unfold pressed. rewrite Hp. by apply bool_decide_eq_true_2. }
  destruct Hclick as (els & Hels).
  exists ([Text Header "View All Profiles";
           Text Markdown
             "Browse through the professional profiles created by others."]
          ++ els).
  unfold view_all_profiles, st_header, st_markdown, emit.
  unfold mbind at 1 2 3. unfold Script_bind at 1 2 3.
  rewrite (load_profiles_served c _ a rest) by (by destruct w).
  destruct w as [cfg apps [docs fts reqs] ss pg]. simpl in *. subst fts.
  rewrite Hg, Hrs.
  destruct (l1 ++ p :: l2) as [|q0 qs] eqn:Hl; [by destruct l1|].
  rewrite Hels. unfold with_session, with_page. simpl.
  by rewrite <- !app_assoc.
Qed.

(** A connected run outside edit mode that reports a click on the
    button of [p] in the flat listing. *)
Lemma main_click (ui : Inputs) (w : World) (l0 : list string)
    (a : string) (rest : list fate) (i : value) (l1 l2 : list dict)
    (p : dict) :
  connected w = true →
  editing (initialised (session_state w)) = false →
  additional_info_list (initialised (session_state w)) = Some l0 →
  ui_pressed ui = Some (EditProfile i "no_grouping") →
  ui_group_by ui = ByNone →
  fates (firestore w) = Serves a :: rest →
  profile_of_doc <$> documents (firestore w) = l1 ++ p :: l2 →
  p !! "id" = Some i →
  (∀ q, q ∈ l1 → q !! "id" ≠ Some i) →
  ∃ w', main ui w = (Raised RerunException, w')
        ∧ session_state w'
          = start_edit p
              (set_additional_info_list (read_infos ui l0)
                 (initialised (session_state w)))
        ∧ firebaseConfig w' = firebaseConfig w
        ∧ firebase_apps w' = true
        ∧ firestore w'
          = mkFirestore (documents (firestore w)) rest
              (requests (firestore w) ++ [ReqStream]).
Proof.
  intros Hc He Hl Hp Hg Hf Hrs Hi Hl1.
  rewrite (main_composing ui w Hc He). unfold mbind, Script_bind.
  rewrite (create_form_idle _ _ _ _ l0) by (simpl; by rewrite ?Hp).
  cbn [session_state].
  destruct (view_all_profiles_click firestore_client ui "admin_456"
    (form_world create_prelude (read_infos ui l0)
       (initialised (session_state w))
       (mkWorld (firebaseConfig w) true (firestore w)
          (initialised (session_state w)) (page w ++ main_prelude w)))
    a rest i l1 l2 p) as (els & ->); try done.
  eexists. by split.
Qed.



Lemma reload_additional_info_current (s : SessionState) :
  current_edit_profile_id (reload_additional_info s)
  = profile_to_edit s !! "id".
Proof.
  unfold reload_additional_info.
  destruct (bool_decide (additional_info_list s = None)); simpl.
  - by destruct (dict_get (profile_to_edit s) "additional_info" (VList [""])).
  - destruct (decide (profile_to_edit s !! "id"
                      = current_edit_profile_id s)) as [Heq|Hne].
    + rewrite bool_decide_eq_false_2 by (by intros ?). by rewrite Heq.
    + rewrite bool_decide_eq_true_2 by done.
      by destruct (dict_get (profile_to_edit s) "additional_info"
                     (VList [""])).
Qed.

(** A connected run in edit mode in which "Cancel Edit" is clicked. *)
Lemma main_cancel (ui : Inputs) (w : World) :
  connected w = true →
  mode w = Editing →
  ui_pressed ui = Some CancelEdit →
  ∃ w', main ui w = (Raised RerunException, w')
        ∧ session_state w'
          = mkSession (Some false) ∅ (Some [""])
              (profile_to_edit (session_state w) !! "id")
        ∧ firebaseConfig w' = firebaseConfig w
        ∧ firebase_apps w' = true
        ∧ firestore w' = firestore w.
Proof.
  intros Hc Hm Hp. rewrite (main_editing ui w Hc Hm).
  unfold mbind, Script_bind. rewrite (edit_form_cancel _ _ _ _ Hp).
  unfold mbind, Script_bind. rewrite reset_edit_run. simpl.
  eexists. split; [reflexivity|]. simpl.
  by rewrite reload_additional_info_current.
Qed.



(** ** Sessions and runs without a client *)

Lemma session_ready_initialised (s : SessionState) :
  edit_mode s = None ∨ session_ready s → session_ready (initialised s).
Proof.
  unfold initialised. intros [Hn|Hr].
  - rewrite Hn. by repeat split.
  - destruct Hr as ([b Hb] & ? & ?). rewrite Hb. by repeat split.
Qed.

Lemma main_disconnected (ui : Inputs) (w : World) :
  connected w = false →
  ∃ w', main ui w = (Returned (), w')
        ∧ session_state w' = initialised (session_state w).
Proof.
  destruct w as [[[|why]|] [|] fs [[em|] pr l cur] pg];
    unfold connected; simpl; intros Hc; try discriminate;
    unfold main, initialize_firebase, init_session, when, get_session,
      modify_session, st_title, st_markdown, st_info, st_error, emit,
      mbind, mret, Script_bind, Script_ret, with_page, with_apps,
      with_session; simpl;
    by eexists.
Qed.

(** ** Staying out of edit mode, and older records *)

(** The listing of records that all carry an "id", in a run in which no
    edit button is clicked, only draws. *)
Lemma emits_listing ui user_id (all_profiles : list dict) :
  (∀ i sfx, ui_pressed ui ≠ Some (EditProfile i sfx)) →
  (∀ p, p ∈ all_profiles → is_Some (p !! "id")) →
  ∃ els,
    emits
      (match ui_group_by ui with
       | ByNone =>
           for_each all_profiles
             (λ profile,
                display_profile ui profile user_id true "no_grouping")
       | _ =>
           for_each
             (group_profiles (lower (group_label (ui_group_by ui)))
                all_profiles)
             (λ '(group_name, profiles_in_group),
                _ ← st_subheader (group_heading group_name profiles_in_group);
                for_each profiles_in_group
                  (λ profile,
                     display_profile ui profile user_id true group_name))
       end) els.
Proof.
  intros Hp Hid.
  assert (Hcard : ∀ sfx p, p ∈ all_profiles →
    outlines (display_profile ui p user_id true sfx) (card_button sfx p)).
  { intros sfx p [i Hi]%Hid. unfold card_button. rewrite Hi.
    apply outlines_display_profile; [done|].
    unfold pressed. apply bool_decide_eq_false_2. apply Hp. }
  assert (Hgroups : ∀ field, ∃ o,
    outlines
      (for_each (group_profiles field all_profiles)
         (λ '(group_name, profiles_in_group),
            _ ← st_subheader (group_heading group_name profiles_in_group);
            for_each profiles_in_group
              (λ profile,
                 display_profile ui profile user_id true group_name))) o).
  { intros field. eexists.
    apply (outlines_for_each _ _
      (λ '(group_name, profiles_in_group),
         Text Subheader (group_heading group_name profiles_in_group)
         :: concat (card_button group_name <$> profiles_in_group))).
    intros [k g] Hg.
    apply (outlines_bind _ _ [Text Subheader (group_heading k g)]);
      [apply (outlines_emit (Text Subheader _))|].
    apply outlines_for_each. intros p Hin. apply Hcard.
    by eapply group_profiles_members. }
  destruct (ui_group_by ui).
  - destruct (outlines_for_each all_profiles
      (λ profile, display_profile ui profile user_id true "no_grouping")
      (card_button "no_grouping") (Hcard "no_grouping"))
      as (els & Hem & _).
    by exists els.
  - destruct (Hgroups (lower (group_label ByExperience))) as (o & els & H & _).
    by exists els.
  - destruct (Hgroups (lower (group_label ByProfession))) as (o & els & H & _).
    by exists els.
  - destruct (Hgroups (lower (group_label ByExpertise))) as (o & els & H & _).
    by exists els.
Qed.

(** Without a click on an edit button the listing leaves the session
    as it is. *)
Lemma view_all_profiles_quiet db ui user_id w :
  (∀ i sfx, ui_pressed ui ≠ Some (EditProfile i sfx)) →
  ∃ w', view_all_profiles db ui user_id true w = (Returned (), w')
        ∧ session_state w' = session_state w.
Proof.
  intros Hp. unfold view_all_profiles, st_header, st_markdown, st_info.
  unfold mbind at 1 2 3. unfold Script_bind at 1 2 3. simpl.
  set (w2 := with_page _ (with_page _ w)).
  destruct (load_profiles_cases db w2) as (rs & w3 & -> & Hs & _ & _ & Hrs).
  assert (Hs2 : session_state w2 = session_state w) by by destruct w.
  destruct rs as [|p0 rs0].
  - eexists. split; [reflexivity|]. destruct w3. simpl in *. congruence.
  - destruct (emits_listing ui user_id (p0 :: rs0) Hp) as (els & Hem).
    { destruct Hrs as [[Heq _]|[? _]]; [|done].
      intros p Hin. rewrite Heq in Hin.
      apply list_elem_of_fmap in Hin as (doc & -> & _).
      apply profile_of_doc_id. }
    rewrite Hem. eexists. split; [reflexivity|].
    destruct w3. simpl in *. congruence.
Qed.

(** The create form never touches the mode or the profile being
    edited, and on a session that holds its list it does not crash. *)
Lemma create_form_keeps_mode ui w l0 :
  additional_info_list (session_state w) = Some l0 →
  ∃ o w', create_form (Some firestore_client) ui "admin_456" w = (o, w')
          ∧ benign o
          ∧ edit_mode (session_state w') = edit_mode (session_state w)
          ∧ profile_to_edit (session_state w')
            = profile_to_edit (session_state w).
Proof.
  intros Hl.
  assert (Hform : ∀ els lst,
    edit_mode (session_state (form_world els lst (session_state w) w))
    = edit_mode (session_state w)
    ∧ profile_to_edit (session_state (form_world els lst (session_state w) w))
      = profile_to_edit (session_state w)).
  { intros els lst. by destruct (session_state w). }
  destruct (decide (ui_pressed ui = Some AddBlock)) as [Ha|Ha].
  { rewrite (create_form_add_block _ _ _ _ _ Hl Ha).
    eexists _, _. split; [reflexivity|]. split; [done|]. apply Hform. }
  destruct (decide (ui_pressed ui = Some PublishCV)) as [Hp|Hp].
  2:{ rewrite (create_form_idle _ _ _ _ _ Hl Ha Hp).
      eexists _, _. split; [reflexivity|]. split; [done|]. apply Hform. }
  destruct (nothing_filled ui (clean_additional_info (read_infos ui l0)))
    eqn:Hn.
  { rewrite (create_form_rejected _ _ _ _ _ Hl Hp Hn).
    eexists _, _. split; [reflexivity|]. split; [done|]. apply Hform. }
  rewrite (create_form_accepted _ _ _ _ _ Hl Hp Hn).
  unfold mbind, Script_bind.
  destruct (save_profile_cases (Some firestore_client)
    (build_profile_data ui (clean_additional_info (read_infos ui l0)))
    "admin_456" None
    (form_world create_prelude (read_infos ui l0) (session_state w) w))
    as (r & w1 & -> & Hs & _).
  eexists _, _. split; [reflexivity|]. split; [done|].
  destruct w1 as [? ? ? s1 ?]. simpl in *. subst s1.
  by destruct (session_state w).
Qed.

(** X17: a run that starts outside edit mode, on a session that is new
    or ready, and in which no edit button is clicked, ends outside edit
    mode, whatever else is clicked or typed and whatever the service
    answers; the profile kept for editing is the one the session had
    (none on a new session). *)
Theorem main_stays_composing (ui : Inputs) (w : World) :
  edit_mode (session_state w) = None ∨ session_ready (session_state w) →
  mode w = Composing →
  (∀ i sfx, ui_pressed ui ≠ Some (EditProfile i sfx)) →
  mode (main ui w).2 = Composing
  ∧ profile_to_edit (session_state (main ui w).2)
    = profile_to_edit (initialised (session_state w)).
Proof.
  intros Hw Hm Hp.
  pose proof (session_ready_initialised _ Hw) as (_ & [l0 Hl] & _).
  assert (He : editing (initialised (session_state w)) = false).
  { unfold mode, editing in Hm. unfold initialised, editing.
    destruct (edit_mode (session_state w)) as [[|]|] eqn:E; simpl;
      rewrite ?E; done. }
  destruct (connected w) eqn:Hc.
  2:{ destruct (main_disconnected ui w Hc) as (w' & Hrun & Hs).
      rewrite Hrun. simpl. unfold mode. by rewrite Hs, He. }
  rewrite (main_composing ui w Hc He). unfold mbind, Script_bind.
  set (w0 := mkWorld _ _ _ _ _).
  destruct (create_form_keeps_mode ui w0 l0 Hl)
    as (o & w1 & -> & Hb & Hm1 & Hp1).
  assert (Hmode : ∀ w2, session_state w2 = session_state w1 →
    mode w2 = Composing
    ∧ profile_to_edit (session_state w2)
      = profile_to_edit (initialised (session_state w))).
  { intros w2 Hs2. unfold mode, editing. rewrite Hs2, Hm1, Hp1. simpl.
    unfold editing in He. by rewrite He. }
  destruct o as [[]|e]; simpl; [|by apply Hmode].
  destruct (view_all_profiles_quiet (Some firestore_client) ui "admin_456"
              w1 Hp) as (w2 & -> & Hs2).
  simpl. by apply Hmode.
Qed.

Lemma main_stays_composing_witness :
  mode (main (named_submission PublishCV) two_profiles).2 = Composing
  ∧ profile_to_edit
      (session_state (main (named_submission PublishCV) two_profiles).2)
    = profile_to_edit (initialised (session_state two_profiles)).
Proof.
  apply (main_stays_composing (named_submission PublishCV) two_profiles).
  - right. repeat split; [by exists false|by exists [""]|discriminate].
  - reflexivity.
  - intros i sfx. discriminate.
Defined.

(** X18: an older record whose additional information is a text, not a
    list.  When the edit form loads it (its identifier is not the one
    last loaded) the text becomes the single slot of the list, and an
    update that leaves the box alone stores it back as a one-entry
    list. *)
Theorem legacy_text_becomes_a_list (c : Client) (ui : Inputs)
    (user_id : string) (w : World) (a : string) (rest : list fate)
    (k : nat) (i : string) (d : dict) (t : string) :
  profile_to_edit (session_state w) !! "id" = Some (VStr i) →
  i ≠ EmptyString →
  profile_to_edit (session_state w) !! "additional_info" = Some (VStr t) →
  current_edit_profile_id (session_state w) ≠ Some (VStr i) →
  blank t = false →
  ui_pressed ui = Some UpdateCV →
  ui_infos ui = [] →
  fates (firestore w) = Serves a :: rest →
  NoDup (doc_ids (documents (firestore w))) →
  documents (firestore w) !! k = Some (i, d) →
  edit_list (session_state w) = [t]
  ∧ ∃ w' d',
      edit_form (Some c) ui user_id w = (Raised RerunException, w')
      ∧ documents (firestore w') !! k = Some (i, d')
      ∧ d' !! "additional_info" = Some (VList [t]).
Proof.
  intros Hid Hi Hinfo Hcur Hb Hp Hui Hf Hnd Hk.
  assert (Hlist : edit_list (session_state w) = [t]).
  { unfold edit_list, reload_additional_info, dict_get.
    rewrite Hid, Hinfo. simpl.
    rewrite (bool_decide_eq_true_2 (Some (VStr i) ≠ _)) by congruence.
    by rewrite orb_true_r. }
  split; [done|].
  assert (Hread : read_infos ui (edit_list (session_state w)) = [t]).
  { rewrite Hlist. unfold read_infos. simpl. by rewrite Hui. }
  assert (Hclean : clean_additional_info [t] = [t]).
  { rewrite clean_additional_info_spec, filter_cons, filter_nil.
    by rewrite decide_True. }
  assert (Hn : nothing_filled ui
            (clean_additional_info
               (read_infos ui (edit_list (session_state w)))) = false).
  { apply nothing_filled_false. rewrite Hread.
    intros (_ & _ & _ & _ & _ & _ & Hall).
    apply Forall_cons in Hall as [Ht _]. congruence. }
  rewrite (edit_form_accepted _ _ _ _ _ Hp Hn Hid). rewrite Hread, Hclean.
  unfold mbind, Script_bind.
  pose proof (update_document_at i
    (stamped user_id (build_profile_data ui [t])) _ k d Hnd Hk) as Hup.
  erewrite save_profile_update; [|done|exact Hf|exact Hup].
  rewrite reset_edit_run. unfold st_rerun, raise.
  eexists _, _. split; [reflexivity|]. simpl.
  split; [apply list_lookup_insert_eq; by eapply lookup_lt_Some|].
  rewrite dict_update_lookup. unfold stamped.
  rewrite lookup_insert_ne by done.
  by rewrite build_profile_data_additional_info.
Qed.

Lemma legacy_text_becomes_a_list_witness :
  edit_list (session_state legacy_world) = ["Certified X"]
  ∧ ∃ w' d',
      edit_form (Some firestore_client) (click UpdateCV) "admin_456"
        legacy_world = (Raised RerunException, w')
      ∧ documents (firestore w') !! 0 = Some ("doc1", d')
      ∧ d' !! "additional_info" = Some (VList ["Certified X"]).
Proof.
  apply (legacy_text_becomes_a_list firestore_client (click UpdateCV)
           "admin_456" legacy_world "doc2" [Serves "doc3"] 0 "doc1"
           {["name" := VStr "Ann"; "additional_info" := VStr "Certified X"]}
           "Certified X").
  - reflexivity.
  - discriminate.
  - reflexivity.
  - discriminate.
  - reflexivity.
  - reflexivity.
  - reflexivity.
  - reflexivity.
  - refine (bool_decide_unpack _ _). vm_compute. exact I.
  - reflexivity.
Defined.
